(** * data-analyzer-front: the API client and the dashboard's state handlers

    A shallow embedding of [src/services/api.js] and of the state handlers of
    [src/components/Dashboard.js], with the properties of the client and of
    the view proved over it.

    Conventions of the embedding.
    - JavaScript strings are [string]s holding the UTF-8 bytes of the text.
      The program only compares, searches and concatenates them with ASCII
      needles ([".csv"], ["500"], ["timeout"], ...), which byte-wise
      operations on UTF-8 decide the same way.
    - A [throw] is the [Throw] completion; [try/catch/finally] are the
      combinators of the same name.
    - [console.log] and [console.error] are not modelled. *)

From Stdlib Require Import String Ascii List Bool NArith ZArith Lia.
From Stdlib Require Import Floats.SpecFloat DecimalString.
Import ListNotations.
Local Open Scope string_scope.
Set Warnings "-register-all".

(** ** JavaScript values, exceptions and the host *)

Module Js.

(** The values the program handles: what [JSON.parse] produces, plus
    [undefined]. Numbers are IEEE 754 doubles. An object lists its
    properties in insertion order, each name once. *)
Inductive value : Type :=
| JUndefined
| JNull
| JBool (b : bool)
| JNum (x : spec_float)
| JStr (s : string)
| JArr (items : list value)
| JObj (props : list (string * value)).

(** An exception object; every one the program can raise is an [Error]
    (or a [TypeError]) with a string [message]. *)
Record Error : Type := new_Error { message : string }.

Inductive completion (A : Type) : Type :=
| Normal (a : A)
| Throw (e : Error).
Arguments Normal {A} a.
Arguments Throw {A} e.

Definition bind {A B} (c : completion A) (k : A -> completion B) : completion B :=
  match c with
  | Normal a => k a
  | Throw e => Throw e
  end.

Definition try_catch {A} (body : completion A) (handler : Error -> completion A)
  : completion A :=
  match body with
  | Normal a => Normal a
  | Throw e => handler e
  end.

(** What the embedding takes from the JavaScript host rather than from the
    repository: the text of the [TypeError] raised by reading property [k]
    of [null] or [undefined], the message [new Error(v)] ends up with when
    [v] is not a string, and the build-time environment variable. *)
Class Host : Type := {
  TypeError_message : value -> string -> string;
  ToString_other : value -> string;
  REACT_APP_API_URL : option string
}.

(** ToBoolean. *)
Definition truthy (v : value) : bool :=
  match v with
  | JUndefined | JNull => false
  | JBool b => b
  | JNum (S754_zero _) | JNum S754_nan => false
  | JNum _ => true
  | JStr s => negb (s =? "")
  | JArr _ | JObj _ => true
  end.

(** [a || b]. *)
Definition or (a b : value) : value := if truthy a then a else b.

Definition nullish (v : value) : bool :=
  match v with
  | JUndefined | JNull => true
  | _ => false
  end.

Fixpoint lookup (k : string) (props : list (string * value)) : option value :=
  match props with
  | [] => None
  | (k', v) :: rest => if k =? k' then Some v else lookup k rest
  end.

(** The value of [v.k] when [v] is neither [null] nor [undefined], for a
    name [k] that no built-in prototype defines (all the names this program
    reads are such): an own property of an object, [undefined] otherwise. *)
Definition read (v : value) (k : string) : value :=
  match v with
  | JObj props =>
      match lookup k props with
      | Some x => x
      | None => JUndefined
      end
  | _ => JUndefined
  end.

(** [v.k]. *)
Definition get {host : Host} (v : value) (k : string) : completion value :=
  if nullish v then Throw (new_Error (TypeError_message v k))
  else Normal (read v k).

(** The exception raised by [throw new Error(v)]. *)
Definition Error_of {host : Host} (v : value) : Error :=
  match v with
  | JStr s => new_Error s
  | _ => new_Error (ToString_other v)
  end.

Definition zero : value := JNum (S754_zero false).

(** [s.toLowerCase()], on the ASCII letters. *)
Definition lower_ascii (c : ascii) : ascii :=
  let n := N_of_ascii c in
  if ((65 <=? n) && (n <=? 90))%N then ascii_of_N (n + 32) else c.

Fixpoint toLowerCase (s : string) : string :=
  match s with
  | EmptyString => EmptyString
  | String c rest => String (lower_ascii c) (toLowerCase rest)
  end.

(** [s.endsWith(suffix)]. *)
Definition endsWith (s suffix : string) : bool :=
  let n := String.length s in
  let m := String.length suffix in
  (m <=? n)%nat && (substring (n - m) m s =? suffix).

(** [s.includes(needle)]. *)
Fixpoint includes (s needle : string) : bool :=
  prefix needle s ||
  match s with
  | EmptyString => false
  | String _ rest => includes rest needle
  end.

End Js.

Import Js.
Declare Scope completion_scope.
Delimit Scope completion_scope with completion.
Notation "x <- c ;; k" := (Js.bind c (fun x => k))
  (at level 61, c at next level, right associativity) : completion_scope.

(** ** The browser and the HTTP client *)

Module Http.

(** A [File] of the file input. *)
Record File : Type := { name : string; size : N; type : string }.

Inductive form_value : Type :=
| FormFile (f : File)
| FormText (s : string).

(** A [FormData] is the list of its appended entries. *)
Definition FormData : Type := list (string * form_value).

Inductive method : Type := GET | POST.

(** A call handed to the axios instance: the instance's configuration merged
    with the call's. *)
Record request : Type := {
  req_method : method;
  baseURL : string;
  url : string;
  timeout : N;
  content_type : string;
  body : option FormData
}.

Record response : Type := { status : N; statusText : string; data : value }.

(** What happens to a call: the server answers, nothing comes back (server
    down, timeout), or the call cannot be set up at all. *)
Inductive transport_outcome : Type :=
| Responded (r : response)
| NoResponse
| NotSent.

(** The server side and the wire. *)
Class Network : Type := { transport : request -> transport_outcome }.

(** The error object axios rejects with: [error.response] and whether
    [error.request] is set. *)
Record AxiosError : Type := {
  err_response : option response;
  err_request : bool
}.

Inductive settled : Type :=
| Fulfilled (r : response)
| Rejected (e : AxiosError).

(** axios's default [validateStatus]. *)
Definition validateStatus (st : N) : bool := ((200 <=? st) && (st <? 300))%N.

(** How axios settles a call before the interceptors run. *)
Definition settle (t : transport_outcome) : settled :=
  match t with
  | Responded r =>
      if validateStatus (status r) then Fulfilled r
      else Rejected {| err_response := Some r; err_request := true |}
  | NoResponse => Rejected {| err_response := None; err_request := true |}
  | NotSent => Rejected {| err_response := None; err_request := false |}
  end.

End Http.

Import Http.

(** ** Effects: calls to the HTTP client and state updates, in order *)

Module Effect.

Local Open Scope list_scope.

Section Events.
Context {U : Type}.

(** [U] is the type of the caller's state updates. *)
Inductive event : Type :=
| Request (r : request)
| Update (u : U).

(** A computation emits events and completes normally or throws. An
    [async] function is one of these; [await] is sequencing. *)
Definition M (A : Type) : Type := (list event * completion A)%type.

Definition ret {A} (a : A) : M A := ([], Normal a).

Definition throw {A} (e : Error) : M A := ([], Throw e).

Definition lift {A} (c : completion A) : M A := ([], c).

Definition emit (e : event) : M unit := ([e], Normal tt).

Definition bind {A B} (c : M A) (k : A -> M B) : M B :=
  match c with
  | (evs, Normal a) => let (evs', r) := k a in (evs ++ evs', r)
  | (evs, Throw e) => (evs, Throw e)
  end.

Definition try_catch {A} (body : M A) (handler : Error -> M A) : M A :=
  match body with
  | (evs, Normal a) => (evs, Normal a)
  | (evs, Throw e) => let (evs', r) := handler e in (evs ++ evs', r)
  end.

(** [try { body } finally { final }]: [final] always runs; its own throw
    replaces the body's completion. *)
Definition try_finally {A} (body : M A) (final : M unit) : M A :=
  let (evs, r) := body in
  match final with
  | (evs', Normal _) => (evs ++ evs', r)
  | (evs', Throw e) => (evs ++ evs', Throw e)
  end.

Definition events {A} (c : M A) : list event := fst c.
Definition result {A} (c : M A) : completion A := snd c.

Definition is_request (e : event) : bool :=
  match e with
  | Request _ => true
  | Update _ => false
  end.

End Events.

Arguments event U : clear implicits.
Arguments M U A : clear implicits.

End Effect.

Import Effect.
Declare Scope effect_scope.
Delimit Scope effect_scope with effect.
Notation "x <- c ;; k" := (Effect.bind c (fun x => k))
  (at level 61, c at next level, right associativity) : effect_scope.
Notation "c ;; k" := (Effect.bind c (fun _ => k))
  (at level 61, right associativity) : effect_scope.

(** ** The browser's [fetch] *)

Module Fetch.

(** A call [fetch(resource, {method, body})]. *)
Record call : Type := {
  resource : string;
  init_method : method;
  init_body : option FormData
}.

(** A [Response]: its status and what [response.json()] settles to (it
    rejects when the body is not JSON). *)
Record Response : Type := { res_status : N; json : completion value }.

(** [response.ok] *)
Definition ok (r : Response) : bool :=
  ((200 <=? res_status r) && (res_status r <=? 299))%N.

(** What [fetch] settles to: a response, whatever its status, or a rejection
    when the request could not be made. *)
Class Web : Type := { fetched : call -> completion Response }.

End Fetch.

(** ** src/services/api.js *)

Module Api.

Section WithHost.
Context {host : Host}.

Local Open Scope completion_scope.

Definition formatAnalysisData (rawAnalysis : value) : completion value :=
  Js.try_catch
    (nested <- get rawAnalysis "analysis";;
     let analysis := Js.or nested rawAnalysis in
     basic_info <- get analysis "basic_info";;
     missing_data <- get analysis "missing_data";;
     duplicates <- get analysis "duplicates";;
     data_quality <- get analysis "data_quality";;
     outliers <- get analysis "outliers";;
     correlation_matrix <- get analysis "correlation_matrix";;
     column_statistics <- get analysis "column_statistics";;
     recommendations <- get analysis "recommendations";;
     analysis_status <- get analysis "analysis_status";;
     Normal (JObj [
       ("basic_info", Js.or basic_info (JObj []));
       ("missing_data", Js.or missing_data
          (JObj [("columns_with_missing", JArr []);
                 ("total_missing_percentage", zero)]));
       ("duplicates", Js.or duplicates
          (JObj [("total_duplicates", zero); ("percentage", zero);
                 ("columns_contributing", JArr [])]));
       ("data_quality", Js.or data_quality
          (JObj [("completeness", zero); ("consistency", zero);
                 ("validity", zero); ("uniqueness", zero)]));
       ("outliers", Js.or outliers (JObj [("columns_with_outliers", JArr [])]));
       ("correlation_matrix", Js.or correlation_matrix (JArr []));
       ("column_statistics", Js.or column_statistics (JObj []));
       ("recommendations", Js.or recommendations
          (JObj [("critical", JArr []); ("moderate", JArr []);
                 ("optional", JArr [])]));
       ("analysis_status", Js.or analysis_status (JStr "unknown"))
     ]))
    (fun error => Throw (new_Error "Error al procesar los datos del análisis")).

End WithHost.

Section Client.
Context {U : Type} {host : Host} {net : Network}.

Local Open Scope effect_scope.

Definition API_BASE_URL : string :=
  match REACT_APP_API_URL with
  | Some u => if u =? "" then "http://localhost:8000/api" else u
  | None => "http://localhost:8000/api"
  end.

(** [`Error ${status}: ${statusText}`] *)
Definition status_line (r : response) : string :=
  "Error " ++ NilZero.string_of_uint (N.to_uint (status r)) ++ ": " ++ statusText r.

(** The rejection handler of [apiClient.interceptors.response]. *)
Definition on_rejected {A} (error : AxiosError) : M U A :=
  match err_response error with
  | Some r =>
      server_error <- lift (get (data r) "error") ;;
      throw (Error_of (Js.or server_error (JStr (status_line r))))
  | None =>
      if err_request error then
        throw (new_Error
          "No se pudo conectar con el servidor. Verifica que la API esté ejecutándose.")
      else
        throw (new_Error "Error en la configuración de la petición")
  end.

(** A call through [apiClient]: the call is issued, axios settles it and the
    response interceptors run (the fulfilment handler is the identity). *)
Definition apiClient (m : method) (path : string) (ctype : string)
    (payload : option FormData) : M U response :=
  let req := {| req_method := m; baseURL := API_BASE_URL; url := path;
                timeout := 30000; content_type := ctype; body := payload |} in
  emit (Request req) ;;
  match settle (transport req) with
  | Fulfilled r => ret r
  | Rejected e => on_rejected e
  end.

Definition apiClient_get (path : string) : M U response :=
  apiClient GET path "application/json" None.

Definition apiClient_post (path : string) (formData : FormData) (ctype : string)
  : M U response :=
  apiClient POST path ctype (Some formData).

Definition uploadAndAnalyzeDataset (file : option File) (name : option string)
  : M U value :=
  try_catch
    (match file with
     | None => throw (new_Error "No se proporcionó archivo")
     | Some f =>
         if negb (endsWith (toLowerCase (Http.name f)) ".csv") then
           throw (new_Error "Solo se admiten archivos CSV")
         else if (50 * 1024 * 1024 <? size f)%N then
           throw (new_Error "El archivo es demasiado grande. Máximo 50MB")
         else
           let formData :=
             [("file", FormFile f);
              ("name", FormText (match name with
                                 | Some n => if n =? "" then Http.name f else n
                                 | None => Http.name f
                                 end))] in
           response <- apiClient_post "/upload/" formData "multipart/form-data" ;;
           ret (data response)
     end)
    (fun error => throw error).

Definition getAnalysesList : M U value :=
  try_catch
    (response <- apiClient_get "/analyses/" ;; ret (data response))
    (fun error => throw error).

Definition getAnalysisDetail (analysisId : string) : M U value :=
  try_catch
    (response <- apiClient_get ("/analyses/" ++ analysisId ++ "/") ;;
     ret (data response))
    (fun error => throw error).

Definition checkAPIHealth : M U value :=
  try_catch
    (response <- apiClient_get "/health/" ;; ret (data response))
    (fun error => throw error).

Definition testConnection : M U bool :=
  try_catch
    (checkAPIHealth ;; ret true)
    (fun error => ret false).

End Client.

Section Fetching.
Context {host : Host} {web : Fetch.Web}.

Local Open Scope effect_scope.

(** [await fetch(...)]; the call is recorded in the trace. *)
Definition fetch (c : Fetch.call) : M Fetch.call Fetch.Response :=
  emit (Update c) ;;
  lift (Fetch.fetched c).

Definition uploadAndAnalyze (file : File) (name : string) : M Fetch.call value :=
  let formData := [("file", FormFile file); ("name", FormText name)] in
  response <- fetch {| Fetch.resource := API_BASE_URL ++ "/upload/";
                       Fetch.init_method := POST;
                       Fetch.init_body := Some formData |} ;;
  if negb (Fetch.ok response) then
    errorData <- lift (Fetch.json response) ;;
    server_error <- lift (get errorData "error") ;;
    throw (Error_of (Js.or server_error (JStr "Error al analizar el dataset")))
  else
    lift (Fetch.json response).

Definition getAnalyses : M Fetch.call value :=
  response <- fetch {| Fetch.resource := API_BASE_URL ++ "/analyses/";
                       Fetch.init_method := GET;
                       Fetch.init_body := None |} ;;
  lift (Fetch.json response).

End Fetching.

End Api.

(** ** src/components/Dashboard.js: the state and its handlers *)

Module Dashboard.

Inductive api_status : Type := online | offline | unknown.

(** The six [useState] cells of [DatasetDashboard]; [None] is [null]. *)
Record state : Type := {
  datasetInfo : option value;
  loading : bool;
  error : option string;
  file : option File;
  apiStatus : api_status;
  uploadProgress : N
}.

Definition initial : state :=
  {| datasetInfo := None; loading := false; error := None; file := None;
     apiStatus := unknown; uploadProgress := 0 |}.

(** A call of one of the six setters. *)
Inductive update : Type :=
| SetDatasetInfo (v : option value)
| SetLoading (b : bool)
| SetError (e : option string)
| SetFile (f : option File)
| SetApiStatus (a : api_status)
| SetUploadProgress (n : N).

Definition apply (u : update) (s : state) : state :=
  match u with
  | SetDatasetInfo v =>
      {| datasetInfo := v; loading := loading s; error := error s;
         file := file s; apiStatus := apiStatus s;
         uploadProgress := uploadProgress s |}
  | SetLoading b =>
      {| datasetInfo := datasetInfo s; loading := b; error := error s;
         file := file s; apiStatus := apiStatus s;
         uploadProgress := uploadProgress s |}
  | SetError e =>
      {| datasetInfo := datasetInfo s; loading := loading s; error := e;
         file := file s; apiStatus := apiStatus s;
         uploadProgress := uploadProgress s |}
  | SetFile f =>
      {| datasetInfo := datasetInfo s; loading := loading s; error := error s;
         file := f; apiStatus := apiStatus s;
         uploadProgress := uploadProgress s |}
  | SetApiStatus a =>
      {| datasetInfo := datasetInfo s; loading := loading s; error := error s;
         file := file s; apiStatus := a;
         uploadProgress := uploadProgress s |}
  | SetUploadProgress n =>
      {| datasetInfo := datasetInfo s; loading := loading s; error := error s;
         file := file s; apiStatus := apiStatus s;
         uploadProgress := n |}
  end.

(** The state once the updates among [evs] are applied, in order, to [s]. *)
Fixpoint after (s : state) (evs : list (event update)) : state :=
  match evs with
  | [] => s
  | Update u :: rest => after (apply u s) rest
  | Request _ :: rest => after s rest
  end.

Definition is_offline (a : api_status) : bool :=
  match a with
  | offline => true
  | _ => false
  end.

Section Handlers.
Context {host : Host} {net : Network}.

Local Open Scope effect_scope.

Definition setDatasetInfo (v : option value) : M update unit :=
  emit (Update (SetDatasetInfo v)).
Definition setLoading (b : bool) : M update unit := emit (Update (SetLoading b)).
Definition setError (e : option string) : M update unit := emit (Update (SetError e)).
Definition setFile (f : option File) : M update unit := emit (Update (SetFile f)).
Definition setApiStatus (a : api_status) : M update unit :=
  emit (Update (SetApiStatus a)).
Definition setUploadProgress (n : N) : M update unit :=
  emit (Update (SetUploadProgress n)).

Definition checkApiConnection : M update unit :=
  try_catch
    (isOnline <- Api.testConnection ;;
     setApiStatus (if isOnline then online else offline))
    (fun error => setApiStatus offline).

(** The message shown for a failed analysis. *)
Definition errorMessage_of (err : Error) : string :=
  let errorMessage :=
    if message err =? "" then "Error al analizar el dataset" else message err in
  if includes errorMessage "500" then
    "Error interno del servidor. Revisa la consola del backend para más detalles."
  else if includes errorMessage "timeout" then
    "El análisis está tomando demasiado tiempo. Intenta con un archivo más pequeño."
  else if includes errorMessage "decode" then
    "Error de codificación. Guarda tu archivo CSV con codificación UTF-8."
  else errorMessage.

(** [analyzeDataset] as created by the render whose state is [s]: it reads
    [file] and [apiStatus] from that render. *)
Definition analyzeDataset (s : state) : M update unit :=
  match file s with
  | None => setError (Some "Por favor, selecciona un archivo CSV")
  | Some f =>
      if is_offline (apiStatus s) then
        setError (Some
          "No se puede conectar con la API. Verifica que el servidor esté ejecutándose.")
      else
        setLoading true ;;
        setError None ;;
        setUploadProgress 0 ;;
        setDatasetInfo None ;;
        try_finally
          (try_catch
             (result <- Api.uploadAndAnalyzeDataset (Some f) (Some (Http.name f)) ;;
              formattedData <- lift (Api.formatAnalysisData result) ;;
              setDatasetInfo (Some formattedData) ;;
              setApiStatus online)
             (fun err =>
                setError (Some (errorMessage_of err)) ;;
                if includes (message err) "conectar" || includes (message err) "servidor"
                then setApiStatus offline
                else ret tt))
          (setLoading false ;;
           setUploadProgress 0)
  end.

(** [handleFileUpload] on a change event whose [target.files] is [files]. *)
Definition handleFileUpload (files : list File) : M update unit :=
  match files with
  | [] => ret tt
  | uploadedFile :: _ =>
      if negb (endsWith (toLowerCase (Http.name uploadedFile)) ".csv") then
        setError (Some "Por favor, sube un archivo CSV válido")
      else if (50 * 1024 * 1024 <? size uploadedFile)%N then
        setError (Some "El archivo es demasiado grande. Máximo 50MB")
      else
        setFile (Some uploadedFile) ;;
        setDatasetInfo None ;;
        setError None
  end.

Definition retryConnection : M update unit :=
  setLoading true ;;
  checkApiConnection ;;
  setLoading false.

End Handlers.

(** The parts of the rendered view that depend on the state. *)
Section Rendering.
Context {host : Host}.

(** What [v.toLocaleString()] gives on a [v] that is neither [null] nor
    [undefined]; the host decides. *)
Variable toLocaleString : value -> completion string.


(** The retry button: rendered only when offline, with its [disabled] flag. *)
Definition retry_button_disabled (s : state) : option bool :=
  if is_offline (apiStatus s) then Some (loading s) else None.


(** [datasetInfo.basic_info.total_rows.toLocaleString()], the first
    expression the report panels evaluate. *)
Definition total_rows_cell (datasetInfo : value) : completion string :=
  (basic_info <- get datasetInfo "basic_info" ;;
   total_rows <- get basic_info "total_rows" ;;
   if nullish total_rows then
     Throw (new_Error (TypeError_message total_rows "toLocaleString"))
   else toLocaleString total_rows)%completion.

End Rendering.

End Dashboard.

(** ** Vocabulary of the properties, and sample data *)

Module Props.

(** The fields of a normalized report with the default each one gets. *)
Definition documented_defaults : list (string * value) :=
  [("basic_info", JObj []);
   ("missing_data",
    JObj [("columns_with_missing", JArr []); ("total_missing_percentage", zero)]);
   ("duplicates",
    JObj [("total_duplicates", zero); ("percentage", zero);
          ("columns_contributing", JArr [])]);
   ("data_quality",
    JObj [("completeness", zero); ("consistency", zero); ("validity", zero);
          ("uniqueness", zero)]);
   ("outliers", JObj [("columns_with_outliers", JArr [])]);
   ("correlation_matrix", JArr []);
   ("column_statistics", JObj []);
   ("recommendations",
    JObj [("critical", JArr []); ("moderate", JArr []); ("optional", JArr [])]);
   ("analysis_status", JStr "unknown")].

Definition documented_fields : list string :=
  ["basic_info"; "missing_data"; "duplicates"; "data_quality"; "outliers";
   "correlation_matrix"; "column_statistics"; "recommendations";
   "analysis_status"].

(** Where the report sits in a payload: under [analysis] when that property
    is truthy, at top level otherwise. *)
Definition report_of (raw : value) : value := Js.or (read raw "analysis") raw.

(** The properties of a report whose fields are read from [analysis]. *)
Definition populated (analysis : value) : list (string * value) :=
  map (fun kd => (fst kd, Js.or (read analysis (fst kd)) (snd kd)))
      documented_defaults.

Definition is_object (v : value) : bool :=
  match v with
  | JObj _ => true
  | _ => false
  end.

(** The name passes the extension check. *)
Definition is_csv (f : File) : bool := endsWith (toLowerCase (Http.name f)) ".csv".

Definition MAX_SIZE : N := 52428800.

Definition is_upload (req : request) : bool :=
  match req_method req with
  | POST => url req =? "/upload/"
  | GET => false
  end.

Section Calls.
Context {host : Host}.

(** The call [uploadAndAnalyzeDataset(f, name)] hands to the client. *)
Definition upload_request (f : File) (name : option string) : request :=
  {| req_method := POST; baseURL := Api.API_BASE_URL; url := "/upload/";
     timeout := 30000; content_type := "multipart/form-data";
     body := Some [("file", FormFile f);
                   ("name", FormText (match name with
                                      | Some n => if n =? "" then Http.name f else n
                                      | None => Http.name f
                                      end))] |}.

(** The call [checkAPIHealth()] hands to the client. *)
Definition health_request : request :=
  {| req_method := GET; baseURL := Api.API_BASE_URL; url := "/health/";
     timeout := 30000; content_type := "application/json"; body := None |}.

(** The exception a rejected call surfaces as. *)
Definition rejection (e : AxiosError) : Error :=
  match err_response e with
  | Some r =>
      if nullish (data r) then new_Error (TypeError_message (data r) "error")
      else Error_of (Js.or (read (data r) "error") (JStr (Api.status_line r)))
  | None =>
      if err_request e then
        new_Error
          "No se pudo conectar con el servidor. Verifica que la API esté ejecutándose."
      else new_Error "Error en la configuración de la petición"
  end.

(** The completion of a call, from what the transport did with it. *)
Definition outcome (t : transport_outcome) : completion response :=
  match settle t with
  | Fulfilled r => Normal r
  | Rejected e => Throw (rejection e)
  end.

(** A GET through the client. *)
Definition get_request (path : string) : request :=
  {| req_method := GET; baseURL := Api.API_BASE_URL; url := path;
     timeout := 30000; content_type := "application/json"; body := None |}.

End Calls.

(** The file passes both checks of the view and of the client. *)
Definition accepted (f : File) : bool := is_csv f && (size f <=? MAX_SIZE)%N.

(** The updates [analyzeDataset] opens and closes an attempt with. *)
Definition opening : list (event Dashboard.update) :=
  [Update (Dashboard.SetLoading true); Update (Dashboard.SetError None);
   Update (Dashboard.SetUploadProgress 0); Update (Dashboard.SetDatasetInfo None)].

Definition closing : list (event Dashboard.update) :=
  [Update (Dashboard.SetLoading false); Update (Dashboard.SetUploadProgress 0)].

(** The messages of the interceptor and of the view. *)
Definition connection_message : string :=
  "No se pudo conectar con el servidor. Verifica que la API esté ejecutándose.".

Definition internal_error_message : string :=
  "Error interno del servidor. Revisa la consola del backend para más detalles.".

(** The error's message makes [analyzeDataset] flip connectivity. *)
Definition blames_connection (e : Error) : bool :=
  includes (message e) "conectar" || includes (message e) "servidor".

(** The updates of the [catch] block of [analyzeDataset]. *)
Definition failure_updates (e : Error) : list (event Dashboard.update) :=
  Update (Dashboard.SetError (Some (Dashboard.errorMessage_of e)))
  :: (if blames_connection e
      then [Update (Dashboard.SetApiStatus Dashboard.offline)]
      else []).

(** The updates between the upload and the [finally] block, from the
    upload's completion. *)
Definition attempt_updates {host : Host} (c : completion value)
  : list (event Dashboard.update) :=
  match c with
  | Normal payload =>
      match Api.formatAnalysisData payload with
      | Normal report =>
          [Update (Dashboard.SetDatasetInfo (Some report));
           Update (Dashboard.SetApiStatus Dashboard.online)]
      | Throw e => failure_updates e
      end
  | Throw e => failure_updates e
  end.

(** The selected file, if any, passes both checks. *)
Definition selection_accepted (s : Dashboard.state) : Prop :=
  match Dashboard.file s with
  | Some f => accepted f = true
  | None => True
  end.

End Props.

Module Sample.

Definition host : Host :=
  {| TypeError_message := fun _ k => "Cannot read properties of null (reading '" ++ k ++ "')";
     ToString_other := fun _ => "[object Object]";
     REACT_APP_API_URL := None |}.

(** A network whose server answers every call with [r]. *)
Definition answering (r : response) : Network :=
  {| transport := fun _ => Responded r |}.

Definition silent : Network := {| transport := fun _ => NoResponse |}.

Definition one : value := JNum (S754_finite false 1 0).

Definition csv (bytes : N) : File :=
  {| Http.name := "Ventas.CSV"; size := bytes; type := "text/csv" |}.

Definition notes : File :=
  {| Http.name := "notes.txt"; size := 120; type := "text/plain" |}.

Definition ok (payload : value) : response :=
  {| status := 200; statusText := "OK"; data := payload |}.

Definition bad_request (payload : value) : response :=
  {| status := 400; statusText := "Bad Request"; data := payload |}.

Definition payload : value :=
  JObj [("analysis",
         JObj [("basic_info", JObj [("total_rows", one)]);
               ("analysis_status", JStr "completed")])].

Definition ready : Dashboard.state :=
  {| Dashboard.datasetInfo := Some (JObj []);
     Dashboard.loading := false;
     Dashboard.error := Some "anterior";
     Dashboard.file := Some (csv 2097152);
     Dashboard.apiStatus := Dashboard.online;
     Dashboard.uploadProgress := 0 |}.

Definition down : Network := {| transport := fun _ => NotSent |}.

Definition server_error (text : string) (payload : value) : response :=
  {| status := 500; statusText := text; data := payload |}.

(** A web where every [fetch] gets status [st] and the JSON body [b]. *)
Definition web (st : N) (b : value) : Fetch.Web :=
  {| Fetch.fetched := fun _ =>
       Normal {| Fetch.res_status := st; Fetch.json := Normal b |} |}.

Definition fresh : Dashboard.state :=
  {| Dashboard.datasetInfo := None;
     Dashboard.loading := false;
     Dashboard.error := None;
     Dashboard.file := None;
     Dashboard.apiStatus := Dashboard.offline;
     Dashboard.uploadProgress := 0 |}.

Definition locale (v : value) : completion string := Normal "1".

End Sample.

(** ** The string functions do what their JavaScript namesakes do *)

Section Strings.

Lemma length_app (s t : string) :
  String.length (s ++ t) = String.length s + String.length t.
Proof. induction s as [| c s IH]; simpl; [reflexivity | now rewrite IH]. Qed.

Lemma substring_whole (s : string) : substring 0 (String.length s) s = s.
Proof. induction s as [| c s IH]; simpl; [reflexivity | now rewrite IH]. Qed.

Lemma substring_past (p s : string) (m : nat) :
  substring (String.length p) m (p ++ s) = substring 0 m s.
Proof. induction p as [| c p IH]; simpl; [reflexivity | exact IH]. Qed.

Lemma substring_cut (s : string) (k : nat) :
  k <= String.length s ->
  s = substring 0 k s ++ substring k (String.length s - k) s.
Proof.
  revert k. induction s as [| c s IH]; intros k Hk; simpl in Hk.
  - replace k with 0 by lia. reflexivity.
  - destruct k as [| k].
    + simpl. now rewrite substring_whole.
    + simpl. f_equal. apply IH. lia.
Qed.

Lemma endsWith_suffix (s suffix : string) :
  endsWith s suffix = true <-> exists p, s = p ++ suffix.
Proof.
  unfold endsWith. rewrite andb_true_iff, Nat.leb_le, String.eqb_eq. split.
  - intros [Hle Hsub].
    exists (substring 0 (String.length s - String.length suffix) s).
    pose proof (substring_cut s (String.length s - String.length suffix)) as Hcut.
    replace (String.length s - (String.length s - String.length suffix))
      with (String.length suffix) in Hcut by lia.
    rewrite Hsub in Hcut. apply Hcut. lia.
  - intros [p ->]. rewrite length_app. split; [lia |].
    replace (String.length p + String.length suffix - String.length suffix)
      with (String.length p) by lia.
    rewrite substring_past. apply substring_whole.
Qed.

Lemma prefix_app (needle s : string) :
  prefix needle s = true <-> exists q, s = needle ++ q.
Proof.
  revert s. induction needle as [| c n IH]; intros s.
  - split; [intros _; now exists s | intros _; now destruct s].
  - destruct s as [| d s]; cbn [prefix].
    + split; [discriminate | intros [q Hq]; discriminate].
    + destruct (ascii_dec c d) as [Heq | Hne].
      * subst d. rewrite IH. split; intros [q Hq]; exists q; simpl in *; congruence.
      * split; [discriminate | intros [q Hq]; simpl in Hq; congruence].
Qed.

Lemma includes_infix (s needle : string) :
  includes s needle = true <-> exists p q, s = p ++ needle ++ q.
Proof.
  induction s as [| c s IH].
  - cbn [includes]. rewrite orb_false_r, prefix_app. split.
    + intros [q Hq]. now exists "", q.
    + intros (p & q & Hpq). destruct p; [now exists q | discriminate].
  - cbn [includes]. rewrite orb_true_iff, prefix_app, IH. split.
    + intros [[q Hq] | (p & q & Hpq)].
      * now exists "", q.
      * exists (String c p), q. simpl. now rewrite Hpq.
    + intros (p & q & Hpq). destruct p as [| d p].
      * left. now exists q.
      * right. exists p, q. simpl in Hpq. congruence.
Qed.
End Strings.

(** ** Properties of [formatAnalysisData] *)

Import Props.
Local Open Scope list_scope.

Section Normalization.
Context {host : Host}.

Lemma get_defined (v : value) (k : string) :
  nullish v = false -> get v k = Normal (read v k).
Proof. intros Hv. unfold get. now rewrite Hv. Qed.

Lemma truthy_defined (v : value) : truthy v = true -> nullish v = false.
Proof. destruct v; simpl; congruence. Qed.

Lemma or_truthy (a b : value) : truthy b = true -> truthy (Js.or a b) = true.
Proof. intros Hb. unfold Js.or. destruct (truthy a) eqn:Ha; assumption. Qed.

Lemma report_of_defined (x : value) :
  nullish x = false -> nullish (report_of x) = false.
Proof.
  intros Hx. unfold report_of, Js.or.
  destruct (truthy (read x "analysis")) eqn:Ht.
  - now apply truthy_defined.
  - exact Hx.
Qed.

Lemma formatAnalysisData_defined (x : value) :
  nullish x = false ->
  Api.formatAnalysisData x = Normal (JObj (populated (report_of x))).
Proof.
  intros Hx. unfold Api.formatAnalysisData.
  rewrite (get_defined x "analysis" Hx). cbn [Js.bind].
  fold (report_of x).
  pose proof (report_of_defined x Hx) as Hr.
  rewrite !(get_defined (report_of x) _ Hr). reflexivity.
Qed.

Lemma formatAnalysisData_nullish (x : value) :
  nullish x = true ->
  Api.formatAnalysisData x
  = Throw (new_Error "Error al procesar los datos del análisis").
Proof.
  intros Hx. unfold Api.formatAnalysisData, get. rewrite Hx. reflexivity.
Qed.

Lemma lookup_populated (a : value) (k : string) (d : value) :
  In (k, d) documented_defaults ->
  lookup k (populated a) = Some (Js.or (read a k) d).
Proof.
  intros Hin. simpl in Hin.
  repeat (destruct Hin as [Heq | Hin];
          [injection Heq as <- <-; reflexivity |]).
  contradiction.
Qed.

Lemma populated_truthy (a : value) (k : string) (v : value) :
  lookup k (populated a) = Some v -> truthy v = true.
Proof.
  unfold populated. simpl.
  repeat (destruct (k =? _)%string;
          [intros [= <-]; apply or_truthy; reflexivity |]).
  discriminate.
Qed.

Lemma or_absorb (u d : value) :
  truthy d = true -> Js.or (Js.or u d) d = Js.or u d.
Proof.
  intros Hd. unfold Js.or at 1. now rewrite (or_truthy u d Hd).
Qed.

Lemma report_of_populated (a : value) :
  report_of (JObj (populated a)) = JObj (populated a).
Proof. reflexivity. Qed.

Lemma populated_idempotent (a : value) :
  populated (JObj (populated a)) = populated a.
Proof.
  unfold populated. simpl.
  rewrite !or_absorb by reflexivity. reflexivity.
Qed.

(** C1. For every raw JSON object, [formatAnalysisData] returns normally an
    object that has exactly the nine documented fields, in order. Each field
    holds the value read from the report (the truthy [analysis] property of
    the input, or else the input itself) or, failing that, its documented
    default; in particular a field absent from the report gets the
    default. *)
Theorem formatAnalysisData_populates_every_field (props : list (string * value)) :
  exists out,
    Api.formatAnalysisData (JObj props) = Normal (JObj out)
    /\ map fst out = documented_fields
    /\ (forall k d, In (k, d) documented_defaults ->
          lookup k out = Some (Js.or (read (report_of (JObj props)) k) d))
    /\ (forall k d, In (k, d) documented_defaults ->
          read (report_of (JObj props)) k = JUndefined ->
          lookup k out = Some d).
Proof.
  exists (populated (report_of (JObj props))).
  split; [now apply formatAnalysisData_defined |].
  split; [reflexivity |].
  split.
  - intros k d Hin. now apply lookup_populated.
  - intros k d Hin Habsent.
    rewrite (lookup_populated _ k d Hin), Habsent. reflexivity.
Qed.

(** C2, as amended. [formatAnalysisData] throws exactly when its input is
    [null] or [undefined], and then with the message "Error al procesar los
    datos del análisis". On every other input it returns normally: on an
    object, and also on an array, a number, a string or a boolean, for which
    the result is the report made of the nine defaults. *)
Theorem formatAnalysisData_throws_iff_nullish (x : value) :
  ((exists e, Api.formatAnalysisData x = Throw e) <-> nullish x = true)
  /\ ((exists r, Api.formatAnalysisData x = Normal r) <-> nullish x = false)
  /\ (forall e, Api.formatAnalysisData x = Throw e ->
        message e = "Error al procesar los datos del análisis")
  /\ (nullish x = false -> is_object x = false ->
        Api.formatAnalysisData x = Normal (JObj documented_defaults)).
Proof.
  destruct (nullish x) eqn:Hx.
  - rewrite (formatAnalysisData_nullish x Hx).
    split; [| split; [| split]].
    + split; [reflexivity | eauto].
    + split; [intros [r Hr]; discriminate | discriminate].
    + intros e [= <-]. reflexivity.
    + discriminate.
  - rewrite (formatAnalysisData_defined x Hx).
    split; [| split; [| split]].
    + split; [intros [e He]; discriminate | discriminate].
    + split; [reflexivity | eauto].
    + intros e He. discriminate.
    + intros _ Hobj. destruct x; try discriminate; reflexivity.
Qed.

(** C9. [formatAnalysisData] is idempotent: applied to a result it returned
    normally, it returns that result again. *)
Theorem formatAnalysisData_idempotent (x r : value) :
  Api.formatAnalysisData x = Normal r ->
  Api.formatAnalysisData r = Normal r.
Proof.
  intros Hr.
  destruct (nullish x) eqn:Hx.
  - rewrite (formatAnalysisData_nullish x Hx) in Hr. discriminate.
  - rewrite (formatAnalysisData_defined x Hx) in Hr. injection Hr as <-.
    rewrite formatAnalysisData_defined by reflexivity.
    now rewrite report_of_populated, populated_idempotent.
Qed.

End Normalization.

(** ** Properties of the client *)

Section ClientProps.
Context {U : Type} {host : Host} {net : Network}.

Lemma on_rejected_throws {A} (e : AxiosError) :
  Api.on_rejected (U := U) (A := A) e = ([], Throw (rejection e)).
Proof.
  unfold Api.on_rejected, rejection, get.
  destruct (err_response e) as [r |].
  - destruct (nullish (data r)); reflexivity.
  - destruct (err_request e); reflexivity.
Qed.

Lemma apiClient_run (m : method) (path ctype : string) (payload : option FormData) :
  Api.apiClient (U := U) m path ctype payload
  = let req := {| req_method := m; baseURL := Api.API_BASE_URL; url := path;
                  timeout := 30000; content_type := ctype; body := payload |} in
    ([Request req], outcome (transport req)).
Proof.
  unfold Api.apiClient, outcome. cbn zeta.
  destruct (settle _) as [r | e].
  - reflexivity.
  - rewrite on_rejected_throws. reflexivity.
Qed.

(** The three ways [uploadAndAnalyzeDataset] goes on a file. *)
Lemma upload_cases (f : File) (name : option string) :
  Api.uploadAndAnalyzeDataset (U := U) (Some f) name
  = if is_csv f then
      if (MAX_SIZE <? size f)%N then
        ([], Throw (new_Error "El archivo es demasiado grande. Máximo 50MB"))
      else
        ([Request (upload_request f name)],
         match outcome (transport (upload_request f name)) with
         | Normal r => Normal (data r)
         | Throw e => Throw e
         end)
    else ([], Throw (new_Error "Solo se admiten archivos CSV")).
Proof.
  unfold Api.uploadAndAnalyzeDataset, Api.apiClient_post. fold (is_csv f).
  change (50 * 1024 * 1024)%N with MAX_SIZE.
  destruct (is_csv f); cbn [negb]; [| reflexivity].
  destruct (MAX_SIZE <? size f)%N; [reflexivity |].
  rewrite apiClient_run. cbn zeta. fold (upload_request f name).
  destruct (outcome _); reflexivity.
Qed.

(** A file that passes both checks is sent; what comes back decides the
    completion. *)
Lemma upload_sends (f : File) (name : option string) :
  is_csv f = true ->
  (size f <= MAX_SIZE)%N ->
  Api.uploadAndAnalyzeDataset (U := U) (Some f) name
  = ([Request (upload_request f name)],
     match outcome (transport (upload_request f name)) with
     | Normal r => Normal (data r)
     | Throw e => Throw e
     end).
Proof.
  intros Hcsv Hsize. rewrite upload_cases, Hcsv.
  apply N.ltb_ge in Hsize. now rewrite Hsize.
Qed.

Lemma upload_too_large (f : File) (name : option string) :
  is_csv f = true ->
  (MAX_SIZE < size f)%N ->
  Api.uploadAndAnalyzeDataset (U := U) (Some f) name
  = ([], Throw (new_Error "El archivo es demasiado grande. Máximo 50MB")).
Proof.
  intros Hcsv Hsize. rewrite upload_cases, Hcsv.
  apply N.ltb_lt in Hsize. now rewrite Hsize.
Qed.

(** C3. A file whose name, in lower case, does not end in ".csv" makes
    [uploadAndAnalyzeDataset] throw an error that carries the reason "Solo
    se admiten archivos CSV", and no call reaches the HTTP client. *)
Theorem upload_rejects_non_csv (f : File) (name : option string) :
  is_csv f = false ->
  Api.uploadAndAnalyzeDataset (U := U) (Some f) name
  = ([], Throw (new_Error "Solo se admiten archivos CSV")).
Proof.
  intros Hcsv. rewrite upload_cases, Hcsv. reflexivity.
Qed.

(** C4. A ".csv" file of exactly 52,428,800 bytes passes the size check and
    its upload is handed to the HTTP client (a POST to /upload/ carrying the
    file); a ".csv" file of 52,428,801 bytes makes the operation throw "El
    archivo es demasiado grande. Máximo 50MB" with no call made. *)
Theorem upload_size_boundary (f g : File) (name : option string) :
  is_csv f = true -> size f = 52428800%N ->
  is_csv g = true -> size g = 52428801%N ->
  (exists req,
     events (Api.uploadAndAnalyzeDataset (U := U) (Some f) name) = [Request req]
     /\ is_upload req = true
     /\ (exists entries, body req = Some entries /\ In ("file", FormFile f) entries))
  /\ Api.uploadAndAnalyzeDataset (U := U) (Some g) name
     = ([], Throw (new_Error "El archivo es demasiado grande. Máximo 50MB")).
Proof.
  intros Hf Hsf Hg Hsg. split.
  - exists (upload_request f name).
    rewrite upload_sends by (try assumption; rewrite Hsf; reflexivity).
    split; [reflexivity |]. split; [reflexivity |].
    eexists. split; [reflexivity |]. left. reflexivity.
  - apply upload_too_large; [assumption |]. rewrite Hsg. reflexivity.
Qed.

Lemma checkAPIHealth_run :
  Api.checkAPIHealth (U := U)
  = ([Request health_request],
     match outcome (transport health_request) with
     | Normal r => Normal (data r)
     | Throw e => Throw e
     end).
Proof.
  unfold Api.checkAPIHealth, Api.apiClient_get. rewrite apiClient_run.
  cbn zeta. fold health_request.
  destruct (outcome _); reflexivity.
Qed.

(** C5. [testConnection] always completes normally with a boolean, after one
    call to /health/: [true] exactly when [checkAPIHealth] completes
    normally, [false] exactly when it throws. In terms of the transport:
    [true] for a 2xx answer, [false] for any other answer, for no answer and
    for a call that could not be set up. *)
Theorem testConnection_never_throws :
  exists b : bool,
    Api.testConnection (U := U) = ([Request health_request], Normal b)
    /\ (b = true <-> exists v, result (Api.checkAPIHealth (U := U)) = Normal v)
    /\ (b = false <-> exists e, result (Api.checkAPIHealth (U := U)) = Throw e)
    /\ b = match transport health_request with
           | Responded r => validateStatus (status r)
           | NoResponse | NotSent => false
           end.
Proof.
  unfold Api.testConnection. rewrite checkAPIHealth_run.
  unfold outcome, settle.
  destruct (transport health_request) as [r | |]; cbn;
    [destruct (validateStatus (status r)); cbn |..];
    eexists; (split; [reflexivity |]);
    repeat split;
    first [ discriminate
          | intros [? ?]; discriminate
          | intros _; eexists; reflexivity
          | reflexivity ].
Qed.

(** C6, as amended. When the server answers the upload of an accepted file
    with a status outside 2xx, the operation throws after its one call (the
    spec's ServerError: an answer was received and refused). If the body's
    [error] property is a non-empty string, the error's message is that
    string, so a 400 answer with body {error: "Invalid CSV"} gives the
    message "Invalid CSV". If the body is not [null] and its [error]
    property is absent or falsy, the message is the status line,
    "Error <status>: <statusText>". *)
Theorem upload_surfaces_server_error
    (f : File) (name : option string) (r : response) :
  is_csv f = true ->
  (size f <= MAX_SIZE)%N ->
  (forall req, is_upload req = true -> transport req = Responded r) ->
  validateStatus (status r) = false ->
  (forall msg,
     read (data r) "error" = JStr msg -> msg <> ""%string ->
     Api.uploadAndAnalyzeDataset (U := U) (Some f) name
     = ([Request (upload_request f name)], Throw (new_Error msg)))
  /\ (nullish (data r) = false ->
      truthy (read (data r) "error") = false ->
      Api.uploadAndAnalyzeDataset (U := U) (Some f) name
      = ([Request (upload_request f name)],
         Throw (new_Error
                  ("Error " ++ NilZero.string_of_uint (N.to_uint (status r))
                     ++ ": " ++ statusText r)%string))).
Proof.
  intros Hcsv Hsize Hnet Hst.
  rewrite upload_sends by assumption.
  rewrite (Hnet (upload_request f name)) by reflexivity.
  unfold outcome, settle. rewrite Hst. unfold rejection. cbn [err_response].
  split.
  - intros msg Herr Hmsg.
    assert (Hobj : nullish (data r) = false).
    { destruct (data r); try reflexivity; discriminate. }
    rewrite Hobj, Herr. unfold Js.or. cbn [truthy].
    apply String.eqb_neq in Hmsg. rewrite Hmsg. reflexivity.
  - intros Hobj Herr. rewrite Hobj. unfold Js.or. rewrite Herr. reflexivity.
Qed.

End ClientProps.

(** ** Properties of the dashboard's handlers *)

Import Dashboard.

Section ViewProps.
Context {host : Host} {net : Network}.

Lemma after_app (s : state) (evs evs' : list (event update)) :
  after s (evs ++ evs') = after (after s evs) evs'.
Proof.
  revert s. induction evs as [| e evs IH]; intros s; [reflexivity |].
  destruct e; simpl; apply IH.
Qed.


(** Closes a goal that equates a computed trace with its bracketed form. *)
Ltac close_bracket :=
  cbn; rewrite <- ?app_assoc; cbn; split; [reflexivity | repeat constructor].

(** Past its two guards, [analyzeDataset] brackets whatever happens between
    four opening updates and two closing ones, and completes normally. *)
Lemma analyzeDataset_bracket (s : state) (f : File) :
  file s = Some f ->
  is_offline (apiStatus s) = false ->
  exists mid,
    analyzeDataset s
    = ([Update (SetLoading true); Update (SetError None);
        Update (SetUploadProgress 0); Update (SetDatasetInfo None)]
         ++ events (Api.uploadAndAnalyzeDataset (Some f) (Some (Http.name f)))
         ++ mid
         ++ [Update (SetLoading false); Update (SetUploadProgress 0)],
       Normal tt)
    /\ Forall (fun e => is_request e = false) mid.
Proof.
  intros Hfile Hon. unfold analyzeDataset. rewrite Hfile, Hon.
  destruct (Api.uploadAndAnalyzeDataset (Some f) (Some (Http.name f)))
    as [evs [payload | e]].
  - destruct (Api.formatAnalysisData payload) as [report | e] eqn:Hfmt.
    + exists [Update (SetDatasetInfo (Some report)); Update (SetApiStatus online)].
      cbn. rewrite Hfmt. close_bracket.
    + cbn. rewrite Hfmt. cbn.
      destruct (includes (message e) "conectar" || includes (message e) "servidor").
      * exists [Update (SetError (Some (errorMessage_of e)));
                Update (SetApiStatus offline)].
        close_bracket.
      * exists [Update (SetError (Some (errorMessage_of e)))]. close_bracket.
  - cbn.
    destruct (includes (message e) "conectar" || includes (message e) "servidor").
    + exists [Update (SetError (Some (errorMessage_of e)));
              Update (SetApiStatus offline)].
      close_bracket.
    + exists [Update (SetError (Some (errorMessage_of e)))]. close_bracket.
Qed.

Lemma not_offline (a : api_status) : a <> offline -> is_offline a = false.
Proof. destruct a; [reflexivity | congruence | reflexivity]. Qed.

(** C7. [handleFileUpload] on a chosen file [f], from state [s]. If [f] is
    not a ".csv" file or is larger than 50 MB, the handler only sets a
    non-empty error message: the selected file, the stored report and every
    other cell stay as they were. Otherwise it records [f] as the selected
    file and clears the stored report and the error message, leaving the
    rest as it was. Either way it completes normally. *)
Theorem handleFileUpload_selects_or_rejects (s : state) (f : File) (others : list File) :
  result (handleFileUpload (f :: others)) = Normal tt
  /\ (is_csv f = false \/ (MAX_SIZE < size f)%N ->
        exists msg,
          msg <> ""
          /\ events (handleFileUpload (f :: others)) = [Update (SetError (Some msg))]
          /\ after s (events (handleFileUpload (f :: others)))
             = {| datasetInfo := datasetInfo s; loading := loading s;
                  error := Some msg; file := file s;
                  apiStatus := apiStatus s;
                  uploadProgress := uploadProgress s |})
  /\ (is_csv f = true -> (size f <= MAX_SIZE)%N ->
        events (handleFileUpload (f :: others))
        = [Update (SetFile (Some f)); Update (SetDatasetInfo None);
           Update (SetError None)]
        /\ after s (events (handleFileUpload (f :: others)))
           = {| datasetInfo := None; loading := loading s;
                error := None; file := Some f;
                apiStatus := apiStatus s;
                uploadProgress := uploadProgress s |}).
Proof.
  unfold handleFileUpload. fold (is_csv f).
  change (50 * 1024 * 1024)%N with MAX_SIZE.
  destruct (is_csv f) eqn:Hcsv; cbn [negb].
  - destruct (N.ltb_spec MAX_SIZE (size f)) as [Hgt | Hle].
    + split; [reflexivity |]. split.
      * intros _. eexists. split; [| split; reflexivity]. discriminate.
      * intros _ Hle. apply N.lt_nge in Hgt. contradiction.
    + split; [reflexivity |]. split.
      * intros [Hno | Hgt]; [discriminate |].
        apply N.lt_nge in Hgt. contradiction.
      * intros _ _. split; reflexivity.
  - split; [reflexivity |]. split.
    + intros _. eexists. split; [| split; reflexivity]. discriminate.
    + discriminate.
Qed.


(** C10. Whenever [analyzeDataset] gets past its two guards (a file is
    selected and connectivity is not [offline]), it completes normally, its
    last two updates are [setLoading(false)] and [setUploadProgress(0)], and
    so, whatever state [s0] its updates land on and whether the upload
    succeeded or threw, the loading flag ends false and the progress 0. *)
Theorem analyzeDataset_always_resets (s s0 : state) (f : File) :
  file s = Some f ->
  apiStatus s <> offline ->
  result (analyzeDataset s) = Normal tt
  /\ (exists before,
        events (analyzeDataset s)
        = before ++ [Update (SetLoading false); Update (SetUploadProgress 0)])
  /\ loading (after s0 (events (analyzeDataset s))) = false
  /\ uploadProgress (after s0 (events (analyzeDataset s))) = 0%N.
Proof.
  intros Hfile Hon.
  destruct (analyzeDataset_bracket s f Hfile (not_offline _ Hon))
    as (mid & -> & _).
  split; [reflexivity |]. split.
  - eexists. cbn [events fst]. rewrite !app_assoc. reflexivity.
  - cbn [events fst]. rewrite !app_assoc, after_app. split; reflexivity.
Qed.

End ViewProps.


Lemma handleFileUpload_selects_or_rejects_witness :
  (exists msg,
     msg <> ""
     /\ events (handleFileUpload [Sample.notes]) = [Update (SetError (Some msg))]
     /\ after Sample.ready (events (handleFileUpload [Sample.notes]))
        = {| datasetInfo := Some (JObj []); loading := false;
             error := Some msg; file := Some (Sample.csv 2097152);
             apiStatus := online; uploadProgress := 0 |})
  /\ after Sample.ready (events (handleFileUpload [Sample.csv 52428800]))
     = {| datasetInfo := None; loading := false; error := None;
          file := Some (Sample.csv 52428800);
          apiStatus := online; uploadProgress := 0 |}.
Proof.
  split.
  - apply (handleFileUpload_selects_or_rejects Sample.ready Sample.notes []).
    left. reflexivity.
  - apply (handleFileUpload_selects_or_rejects Sample.ready
             (Sample.csv 52428800) []).
    + reflexivity.
    + discriminate.
Defined.


Lemma analyzeDataset_always_resets_witness :
  loading (after Sample.ready
             (events (analyzeDataset (host := Sample.host) (net := Sample.silent)
                        Sample.ready))) = false
  /\ uploadProgress (after Sample.ready
                       (events (analyzeDataset (host := Sample.host)
                                  (net := Sample.silent) Sample.ready))) = 0%N.
Proof.
  apply (analyzeDataset_always_resets (host := Sample.host) (net := Sample.silent)
           Sample.ready Sample.ready (Sample.csv 2097152)).
  - reflexivity.
  - discriminate.
Defined.

Lemma upload_rejects_non_csv_witness :
  is_csv Sample.notes = false
  /\ Api.uploadAndAnalyzeDataset (U := Dashboard.update)
       (host := Sample.host) (net := Sample.answering (Sample.ok Sample.payload))
       (Some Sample.notes) None
     = ([], Throw (new_Error "Solo se admiten archivos CSV")).
Proof.
  split; [reflexivity |].
  apply upload_rejects_non_csv. reflexivity.
Defined.

Lemma upload_size_boundary_witness :
  let f := Sample.csv 52428800 in
  let g := Sample.csv 52428801 in
  (exists req,
     events (Api.uploadAndAnalyzeDataset (U := Dashboard.update)
               (host := Sample.host) (net := Sample.silent) (Some f) None)
     = [Request req]
     /\ is_upload req = true
     /\ (exists entries, body req = Some entries /\ In ("file", FormFile f) entries))
  /\ Api.uploadAndAnalyzeDataset (U := Dashboard.update)
       (host := Sample.host) (net := Sample.silent) (Some g) None
     = ([], Throw (new_Error "El archivo es demasiado grande. Máximo 50MB")).
Proof.
  apply (upload_size_boundary (host := Sample.host) (net := Sample.silent)
           (Sample.csv 52428800) (Sample.csv 52428801) None);
    reflexivity.
Defined.

(** C6, as first stated, fails: the answer 400 whose body has an [error]
    property holding the empty string does carry that property, yet the
    message of the error thrown is not its value but the status line. *)
Lemma upload_ignores_empty_server_error :
  let r := Sample.bad_request (JObj [("error", JStr "")]) in
  validateStatus (status r) = false
  /\ lookup "error" [("error", JStr "")] = Some (JStr "")
  /\ result (Api.uploadAndAnalyzeDataset (U := Dashboard.update)
               (host := Sample.host) (net := Sample.answering r)
               (Some (Sample.csv 2097152)) None)
     = Throw (new_Error "Error 400: Bad Request").
Proof. repeat split. Qed.

Lemma upload_surfaces_server_error_witness :
  Api.uploadAndAnalyzeDataset (U := Dashboard.update)
    (host := Sample.host)
    (net := Sample.answering
              (Sample.bad_request (JObj [("error", JStr "Invalid CSV")])))
    (Some (Sample.csv 2097152)) None
  = ([Request (upload_request (host := Sample.host) (Sample.csv 2097152) None)],
     Throw (new_Error "Invalid CSV"))
  /\ Api.uploadAndAnalyzeDataset (U := Dashboard.update)
       (host := Sample.host)
       (net := Sample.answering (Sample.bad_request (JObj [("error", JNull)])))
       (Some (Sample.csv 2097152)) None
     = ([Request (upload_request (host := Sample.host) (Sample.csv 2097152) None)],
        Throw (new_Error "Error 400: Bad Request")).
Proof.
  split.
  - destruct (upload_surfaces_server_error (U := Dashboard.update)
                (host := Sample.host)
                (net := Sample.answering
                          (Sample.bad_request (JObj [("error", JStr "Invalid CSV")])))
                (Sample.csv 2097152) None
                (Sample.bad_request (JObj [("error", JStr "Invalid CSV")])))
      as [Hmsg _].
    + reflexivity.
    + discriminate.
    + intros req _. reflexivity.
    + reflexivity.
    + apply (Hmsg "Invalid CSV"); [reflexivity | discriminate].
  - destruct (upload_surfaces_server_error (U := Dashboard.update)
                (host := Sample.host)
                (net := Sample.answering
                          (Sample.bad_request (JObj [("error", JNull)])))
                (Sample.csv 2097152) None
                (Sample.bad_request (JObj [("error", JNull)])))
      as [_ Hline].
    + reflexivity.
    + discriminate.
    + intros req _. reflexivity.
    + reflexivity.
    + apply Hline; reflexivity.
Defined.

Lemma formatAnalysisData_throws_iff_nullish_witness :
  Api.formatAnalysisData (host := Sample.host) (JArr [JStr "fila"])
  = Normal (JObj documented_defaults)
  /\ Api.formatAnalysisData (host := Sample.host) (JBool false)
     = Normal (JObj documented_defaults).
Proof.
  split.
  - apply (formatAnalysisData_throws_iff_nullish (host := Sample.host)
             (JArr [JStr "fila"])); reflexivity.
  - apply (formatAnalysisData_throws_iff_nullish (host := Sample.host)
             (JBool false)); reflexivity.
Defined.

(** C2, as first stated, fails: a number is not an object, yet
    [formatAnalysisData] returns normally on it (with every default). *)
Lemma formatAnalysisData_returns_on_a_number :
  is_object Sample.one = false
  /\ Api.formatAnalysisData (host := Sample.host) Sample.one
     = Normal (JObj documented_defaults).
Proof. split; reflexivity. Qed.

Lemma formatAnalysisData_idempotent_witness :
  Api.formatAnalysisData (host := Sample.host) Sample.payload
  = Normal (JObj (populated (report_of Sample.payload)))
  /\ Api.formatAnalysisData (host := Sample.host)
       (JObj (populated (report_of Sample.payload)))
     = Normal (JObj (populated (report_of Sample.payload))).
Proof.
  split; [reflexivity |].
  apply (formatAnalysisData_idempotent (host := Sample.host) Sample.payload).
  reflexivity.
Defined.

(** ** Further properties: the extension check *)

Section Extension.

Local Open Scope string_scope.

Lemma toLowerCase_app (s t : string) :
  toLowerCase (s ++ t) = toLowerCase s ++ toLowerCase t.
Proof. induction s as [| c s IH]; simpl; [reflexivity | now rewrite IH]. Qed.

Lemma toLowerCase_length (s : string) :
  String.length (toLowerCase s) = String.length s.
Proof. induction s as [| c s IH]; simpl; [reflexivity | now rewrite IH]. Qed.

Lemma app_inj_length (a a' b b' : string) :
  String.length a = String.length a' ->
  a ++ b = a' ++ b' -> a = a' /\ b = b'.
Proof.
  revert a'. induction a as [| c a IH]; intros [| c' a'] Hlen Heq;
    simpl in *; try discriminate.
  - now split.
  - injection Heq as -> Heq. injection Hlen as Hlen.
    destruct (IH a' Hlen Heq) as [-> ->]. now split.
Qed.

Lemma length_substring_0 (s : string) (k : nat) :
  k <= String.length s -> String.length (substring 0 k s) = k.
Proof.
  revert k. induction s as [| c s IH]; intros [| k] Hk; simpl in *;
    try reflexivity; try lia.
  rewrite IH by lia. reflexivity.
Qed.

(** X1. The extension check of the client and of the view accepts a name
    exactly when it splits into a stem and an extension that reads ".csv"
    once its ASCII letters are lowered: ".csv", ".CSV" and ".Csv" all pass. *)
Theorem extension_check_ignores_case (f : File) :
  is_csv f = true
  <-> exists stem ext, Http.name f = stem ++ ext /\ toLowerCase ext = ".csv".
Proof.
  unfold is_csv. rewrite endsWith_suffix. split.
  - intros [p Hp].
    assert (Hlen : 4 <= String.length (Http.name f)).
    { rewrite <- toLowerCase_length, Hp, length_app. simpl. lia. }
    pose proof (substring_cut (Http.name f) (String.length (Http.name f) - 4))
      as Hcut.
    replace (String.length (Http.name f) - (String.length (Http.name f) - 4))
      with 4 in Hcut by lia.
    specialize (Hcut ltac:(lia)).
    set (stem := substring 0 (String.length (Http.name f) - 4) (Http.name f)) in *.
    set (ext := substring (String.length (Http.name f) - 4) 4 (Http.name f)) in *.
    exists stem, ext. split; [exact Hcut |].
    rewrite Hcut, toLowerCase_app in Hp.
    apply app_inj_length in Hp; [apply Hp |].
    rewrite toLowerCase_length. subst stem.
    rewrite length_substring_0 by lia.
    apply (f_equal String.length) in Hp.
    rewrite !length_app, !toLowerCase_length in Hp. simpl in Hp.
    apply (f_equal String.length) in Hcut. rewrite length_app in Hcut.
    rewrite length_substring_0 in Hp, Hcut by lia. lia.
  - intros (stem & ext & Hname & Hext).
    exists (toLowerCase stem). now rewrite Hname, toLowerCase_app, Hext.
Qed.

End Extension.

(** ** Further properties: normalization and what the view reads from it *)

Section NormalizationMore.
Context {host : Host}.

(** X2. When the payload's [analysis] property is truthy, the report is
    read from it alone: two payloads carrying the same [analysis] normalize
    to the same result whatever else they hold. The unwrapping is one level
    deep: the result is that of normalizing [analysis] itself provided
    [analysis] has no truthy [analysis] property of its own. *)
Theorem formatAnalysisData_nested_wins
    (props props' : list (string * value)) (a : value) :
  lookup "analysis" props = Some a ->
  lookup "analysis" props' = Some a ->
  truthy a = true ->
  Api.formatAnalysisData (JObj props') = Api.formatAnalysisData (JObj props)
  /\ (truthy (read a "analysis") = false ->
      Api.formatAnalysisData (JObj props) = Api.formatAnalysisData a).
Proof.
  intros Hp Hp' Ha.
  assert (Hrep : forall q, lookup "analysis" q = Some a -> report_of (JObj q) = a).
  { intros q Hq. unfold report_of, read. rewrite Hq. unfold Js.or. now rewrite Ha. }
  rewrite !formatAnalysisData_defined by reflexivity.
  rewrite (Hrep props Hp), (Hrep props' Hp'). split; [reflexivity |].
  intros Hinner.
  rewrite formatAnalysisData_defined by (now apply truthy_defined).
  unfold report_of, Js.or. now rewrite Hinner.
Qed.

(** X3. Whatever the input, a report [formatAnalysisData] returns is an
    object whose own properties are exactly the nine fields, in order, and
    each of them holds a truthy value: none is [null] or [undefined], so
    reading a property of any field of the report cannot throw. *)
Theorem normalized_report_shape (x r : value) :
  Api.formatAnalysisData x = Normal r ->
  exists out,
    r = JObj out
    /\ map fst out = documented_fields
    /\ (forall k, In k documented_fields -> exists v, lookup k out = Some v)
    /\ (forall k v, lookup k out = Some v ->
          In k documented_fields /\ truthy v = true /\ nullish v = false).
Proof.
  intros Hr.
  destruct (nullish x) eqn:Hx.
  - rewrite (formatAnalysisData_nullish x Hx) in Hr. discriminate.
  - rewrite (formatAnalysisData_defined x Hx) in Hr. injection Hr as <-.
    exists (populated (report_of x)).
    split; [reflexivity |]. split; [reflexivity |]. split.
    + intros k Hk. simpl in Hk.
      repeat (destruct Hk as [<- | Hk]; [eexists; reflexivity |]).
      contradiction.
    + intros k v Hlk.
      pose proof (populated_truthy _ _ _ Hlk) as Ht.
      split; [| split; [exact Ht | now apply truthy_defined]].
      revert Hlk. unfold populated. simpl.
      repeat match goal with
             | |- context [(k =? ?name)%string] =>
                 destruct (String.eqb_spec k name) as [-> | _];
                 [intros _; simpl; tauto |]
             end.
      discriminate.
Qed.

(** X4. Normalization does not make a report renderable. Whenever the
    report of the payload has no [basic_info.total_rows] (it is absent,
    [null], or [basic_info] itself is missing or falsy), the first
    expression of the report panels,
    [datasetInfo.basic_info.total_rows.toLocaleString()], throws on the
    normalized report. *)
Theorem total_rows_cell_throws_on_defaults
    (toLocaleString : value -> completion string) (x r : value) :
  Api.formatAnalysisData x = Normal r ->
  nullish (read (read (report_of x) "basic_info") "total_rows") = true ->
  exists e, total_rows_cell toLocaleString r = Throw e.
Proof.
  intros Hr Hrows.
  destruct (nullish x) eqn:Hx.
  - rewrite (formatAnalysisData_nullish x Hx) in Hr. discriminate.
  - rewrite (formatAnalysisData_defined x Hx) in Hr. injection Hr as <-.
    unfold total_rows_cell.
    rewrite get_defined by reflexivity. cbn [Js.bind].
    change (read (JObj (populated (report_of x))) "basic_info")
      with (Js.or (read (report_of x) "basic_info") (JObj [])).
    unfold Js.or.
    destruct (truthy (read (report_of x) "basic_info")) eqn:Ht.
    + rewrite get_defined by (now apply truthy_defined). cbn [Js.bind].
      rewrite Hrows. eauto.
    + cbn. eauto.
Qed.

End NormalizationMore.

Lemma formatAnalysisData_nested_wins_witness :
  Api.formatAnalysisData (host := Sample.host)
    (JObj [("basic_info", JNull); ("analysis", JObj [("outliers", JArr [])])])
  = Api.formatAnalysisData (host := Sample.host)
      (JObj [("analysis", JObj [("outliers", JArr [])]);
             ("basic_info", JObj [("total_rows", Sample.one)])]).
Proof.
  apply (formatAnalysisData_nested_wins (host := Sample.host)
           [("analysis", JObj [("outliers", JArr [])]);
            ("basic_info", JObj [("total_rows", Sample.one)])]
           [("basic_info", JNull); ("analysis", JObj [("outliers", JArr [])])]
           (JObj [("outliers", JArr [])]));
    reflexivity.
Defined.

Lemma normalized_report_shape_witness :
  exists out,
    JObj documented_defaults = JObj out
    /\ map fst out = documented_fields
    /\ (forall k, In k documented_fields -> exists v, lookup k out = Some v)
    /\ (forall k v, lookup k out = Some v ->
          In k documented_fields /\ truthy v = true /\ nullish v = false).
Proof.
  apply (normalized_report_shape (host := Sample.host) (JStr "sin datos")).
  reflexivity.
Defined.

Lemma total_rows_cell_throws_on_defaults_witness :
  exists e,
    total_rows_cell (host := Sample.host) Sample.locale
      (JObj (populated (report_of (JObj [])))) = Throw e.
Proof.
  apply (total_rows_cell_throws_on_defaults (host := Sample.host)
           Sample.locale (JObj []));
    reflexivity.
Defined.

(** ** Further properties: the client's operations *)

Section ClientMore.
Context {U : Type} {host : Host} {net : Network}.

Local Open Scope string_scope.

Lemma getAnalysesList_run :
  Api.getAnalysesList (U := U)
  = ([Request (get_request "/analyses/")],
     match outcome (transport (get_request "/analyses/")) with
     | Normal r => Normal (data r)
     | Throw e => Throw e
     end).
Proof.
  unfold Api.getAnalysesList, Api.apiClient_get. rewrite apiClient_run.
  cbn zeta. fold (get_request "/analyses/").
  destruct (outcome _); reflexivity.
Qed.

Lemma getAnalysisDetail_run (analysisId : string) :
  Api.getAnalysisDetail (U := U) analysisId
  = ([Request (get_request ("/analyses/" ++ analysisId ++ "/"))],
     match outcome (transport (get_request ("/analyses/" ++ analysisId ++ "/"))) with
     | Normal r => Normal (data r)
     | Throw e => Throw e
     end).
Proof.
  unfold Api.getAnalysisDetail, Api.apiClient_get. rewrite apiClient_run.
  cbn zeta. fold (get_request ("/analyses/" ++ analysisId ++ "/")).
  destruct (outcome _); reflexivity.
Qed.

Lemma checkAPIHealth_get :
  Api.checkAPIHealth (U := U)
  = ([Request (get_request "/health/")],
     match outcome (transport (get_request "/health/")) with
     | Normal r => Normal (data r)
     | Throw e => Throw e
     end).
Proof. exact checkAPIHealth_run. Qed.

Lemma accepted_true (f : File) :
  accepted f = true <-> is_csv f = true /\ (size f <= MAX_SIZE)%N.
Proof. unfold accepted. now rewrite andb_true_iff, N.leb_le. Qed.

Lemma accepted_false (f : File) :
  accepted f = false <-> is_csv f = false \/ (MAX_SIZE < size f)%N.
Proof. unfold accepted. now rewrite andb_false_iff, N.leb_gt. Qed.

(** X5. [uploadAndAnalyzeDataset] hands a call to the HTTP client exactly
    when a file is given and it passes both checks, and then exactly one,
    the POST of that file; in every other case it makes no call and
    throws. *)
Theorem upload_calls_exactly_when_accepted (file : option File) (name : option string) :
  (exists f, file = Some f /\ accepted f = true
     /\ events (Api.uploadAndAnalyzeDataset (U := U) file name)
        = [Request (upload_request f name)])
  \/ ((file = None \/ exists f, file = Some f /\ accepted f = false)
      /\ events (Api.uploadAndAnalyzeDataset (U := U) file name) = []
      /\ exists e, result (Api.uploadAndAnalyzeDataset (U := U) file name) = Throw e).
Proof.
  destruct file as [f |].
  - destruct (accepted f) eqn:Hacc.
    + left. exists f.
      destruct (proj1 (accepted_true f) Hacc) as [Hcsv Hsize].
      rewrite upload_sends by assumption. auto.
    + right. split; [right; eauto |].
      destruct (proj1 (accepted_false f) Hacc) as [Hcsv | Hsize].
      * rewrite upload_cases, Hcsv. cbn. eauto.
      * rewrite upload_cases. apply N.ltb_lt in Hsize. rewrite Hsize.
        destruct (is_csv f); cbn; eauto.
  - right. split; [now left |]. cbn. eauto.
Qed.

(** X6. The four operations classify an unanswered call alike. When nothing
    comes back from the server, the upload of an accepted file, the list,
    the detail and the health check all throw "No se pudo conectar con el
    servidor. Verifica que la API esté ejecutándose."; when the call could
    not be set up, they all throw "Error en la configuración de la
    petición". *)
Theorem unanswered_calls_classified
    (t : transport_outcome) (f : File) (name : option string) (analysisId : string) :
  (forall req, transport req = t) ->
  (forall r, t <> Responded r) ->
  accepted f = true ->
  let e := new_Error (match t with
                      | NotSent => "Error en la configuración de la petición"
                      | _ => connection_message
                      end) in
  result (Api.uploadAndAnalyzeDataset (U := U) (Some f) name) = Throw e
  /\ result (Api.getAnalysesList (U := U)) = Throw e
  /\ result (Api.getAnalysisDetail (U := U) analysisId) = Throw e
  /\ result (Api.checkAPIHealth (U := U)) = Throw e.
Proof.
  intros Hnet Hno Hacc. apply accepted_true in Hacc as [Hcsv Hsize].
  rewrite upload_sends by assumption.
  rewrite getAnalysesList_run, getAnalysisDetail_run, checkAPIHealth_get.
  rewrite !Hnet. clear Hnet.
  destruct t as [r | |].
  - now destruct (Hno r).
  - cbn. auto.
  - cbn. auto.
Qed.


(** X8. A non-2xx answer whose body is not [null] and carries no truthy
    [error] makes the three GET operations throw the status line, "Error
    <status>: <statusText>", with the status in decimal. *)
Theorem get_operations_status_line (analysisId : string) (r : response) :
  (forall req, req_method req = GET -> transport req = Responded r) ->
  validateStatus (status r) = false ->
  nullish (data r) = false ->
  truthy (read (data r) "error") = false ->
  let e := new_Error ("Error " ++ NilZero.string_of_uint (N.to_uint (status r))
                        ++ ": " ++ statusText r) in
  result (Api.getAnalysesList (U := U)) = Throw e
  /\ result (Api.getAnalysisDetail (U := U) analysisId) = Throw e
  /\ result (Api.checkAPIHealth (U := U)) = Throw e.
Proof.
  intros Hnet Hst Hbody Herr.
  rewrite getAnalysesList_run, getAnalysisDetail_run, checkAPIHealth_get.
  rewrite !Hnet by reflexivity.
  unfold outcome, settle. rewrite Hst.
  unfold rejection. cbn [err_response]. rewrite Hbody.
  unfold Js.or. rewrite Herr. cbn. auto.
Qed.

(** X9. A non-2xx answer whose body is [null] loses its status: the
    interceptor itself fails reading [error] of [null], and the upload of an
    accepted file and the three GET operations throw the engine's TypeError
    text instead of a server message or a status line. *)
Theorem null_error_body_surfaces_type_error
    (f : File) (name : option string) (analysisId : string) (r : response) :
  (forall req, transport req = Responded r) ->
  validateStatus (status r) = false ->
  nullish (data r) = true ->
  accepted f = true ->
  let e := new_Error (TypeError_message (data r) "error") in
  result (Api.uploadAndAnalyzeDataset (U := U) (Some f) name) = Throw e
  /\ result (Api.getAnalysesList (U := U)) = Throw e
  /\ result (Api.getAnalysisDetail (U := U) analysisId) = Throw e
  /\ result (Api.checkAPIHealth (U := U)) = Throw e.
Proof.
  intros Hnet Hst Hbody Hacc. apply accepted_true in Hacc as [Hcsv Hsize].
  rewrite upload_sends by assumption.
  rewrite getAnalysesList_run, getAnalysisDetail_run, checkAPIHealth_get.
  rewrite !Hnet.
  unfold outcome, settle. rewrite Hst.
  unfold rejection. cbn [err_response]. rewrite Hbody. cbn. auto.
Qed.

End ClientMore.

(** ** Further properties: the [fetch]-based operations *)

Section FetchMore.
Context {U : Type} {host : Host} {net : Network} {web : Fetch.Web}.

Local Open Scope string_scope.



(** X11. On an answer that is not ok, [uploadAndAnalyze] throws: the body's
    [error] when it is a non-empty string, "Error al analizar el dataset"
    when the body is JSON without a truthy [error], and the parse failure
    itself when the body is not JSON. *)
Theorem uploadAndAnalyze_failure_message (f : File) (name : string) (r : Fetch.Response) :
  (forall c, Fetch.fetched c = Normal r) ->
  Fetch.ok r = false ->
  (forall body msg,
     Fetch.json r = Normal body -> read body "error" = JStr msg -> msg <> "" ->
     result (Api.uploadAndAnalyze f name) = Throw (new_Error msg))
  /\ (forall body,
        Fetch.json r = Normal body -> nullish body = false ->
        truthy (read body "error") = false ->
        result (Api.uploadAndAnalyze f name)
        = Throw (new_Error "Error al analizar el dataset"))
  /\ (forall e,
        Fetch.json r = Throw e ->
        result (Api.uploadAndAnalyze f name) = Throw e).
Proof.
  intros Hweb Hok.
  unfold Api.uploadAndAnalyze, Api.fetch. rewrite Hweb. cbn. rewrite Hok. cbn.
  split; [| split].
  - intros body msg Hjson Herr Hmsg. rewrite Hjson. cbn.
    assert (Hbody : nullish body = false)
      by (destruct body; try reflexivity; discriminate).
    rewrite (get_defined body "error" Hbody), Herr. cbn.
    unfold Js.or. cbn [truthy]. apply String.eqb_neq in Hmsg.
    rewrite Hmsg. reflexivity.
  - intros body Hjson Hbody Herr. rewrite Hjson. cbn.
    rewrite (get_defined body "error" Hbody). cbn.
    unfold Js.or. rewrite Herr. reflexivity.
  - intros e Hjson. rewrite Hjson. reflexivity.
Qed.

(** X12. [getAnalyses] never looks at the status. An answer with a non-2xx
    status and a JSON body is returned as if it were the list, where
    [getAnalysesList] throws on the same answer. *)
Theorem getAnalyses_ignores_status (st : N) (text : string) (body : value) :
  (forall c, Fetch.fetched c
             = Normal {| Fetch.res_status := st; Fetch.json := Normal body |}) ->
  (forall req, transport req
               = Responded {| status := st; statusText := text; data := body |}) ->
  validateStatus st = false ->
  result Api.getAnalyses = Normal body
  /\ exists e, result (Api.getAnalysesList (U := U)) = Throw e.
Proof.
  intros Hweb Hnet Hst. split.
  - unfold Api.getAnalyses, Api.fetch. rewrite Hweb. reflexivity.
  - rewrite getAnalysesList_run, Hnet. unfold outcome, settle.
    cbn [status]. rewrite Hst. cbn. eauto.
Qed.

End FetchMore.

(** ** Further properties: an analysis attempt, end to end *)

Section AttemptMore.
Context {host : Host} {net : Network}.

Lemma after_requests (s : state) (evs : list (event update)) :
  Forall (fun e => is_request e = true) evs -> after s evs = s.
Proof.
  induction 1 as [| e evs He _ IH]; [reflexivity |].
  destruct e; [exact IH | discriminate].
Qed.

Lemma upload_trace_requests {U : Type} (file : option File) (name : option string) :
  Forall (fun e => is_request e = true)
         (events (Api.uploadAndAnalyzeDataset (U := U) file name)).
Proof.
  destruct file as [f |]; [| constructor].
  rewrite upload_cases.
  destruct (is_csv f); [| constructor].
  destruct (MAX_SIZE <? size f)%N; repeat constructor.
Qed.

(** The whole trace of an attempt, from the upload's trace and completion. *)
Lemma analyzeDataset_attempt (s : state) (f : File) :
  file s = Some f ->
  is_offline (apiStatus s) = false ->
  analyzeDataset s
  = (opening
       ++ events (Api.uploadAndAnalyzeDataset (Some f) (Some (Http.name f)))
       ++ attempt_updates
            (result (Api.uploadAndAnalyzeDataset (U := update)
                       (Some f) (Some (Http.name f))))
       ++ closing,
     Normal tt).
Proof.
  intros Hfile Hon. unfold analyzeDataset. rewrite Hfile, Hon.
  destruct (Api.uploadAndAnalyzeDataset (Some f) (Some (Http.name f)))
    as [evs [payload | e]]; cbn [events result fst snd attempt_updates].
  - destruct (Api.formatAnalysisData payload) as [report | e] eqn:Hfmt.
    + cbn. rewrite Hfmt. cbn. now rewrite <- !app_assoc.
    + cbn. rewrite Hfmt. cbn. unfold failure_updates, blames_connection.
      destruct (includes (message e) "conectar" || includes (message e) "servidor");
        cbn; now rewrite <- !app_assoc.
  - cbn. unfold failure_updates, blames_connection.
    destruct (includes (message e) "conectar" || includes (message e) "servidor");
      cbn; now rewrite <- !app_assoc.
Qed.

Lemma after_failed_attempt (s0 : state) (evs : list (event update)) (e : Error) :
  Forall (fun ev => is_request ev = true) evs ->
  after s0 (opening ++ evs ++ failure_updates e ++ closing)
  = {| datasetInfo := None; loading := false;
       error := Some (errorMessage_of e); file := file s0;
       apiStatus := if blames_connection e then offline else apiStatus s0;
       uploadProgress := 0 |}.
Proof.
  intros Hevs. rewrite !after_app, (after_requests _ evs Hevs).
  unfold failure_updates. destruct (blames_connection e); reflexivity.
Qed.

Lemma after_stored_attempt (s0 : state) (evs : list (event update)) (report : value) :
  Forall (fun ev => is_request ev = true) evs ->
  after s0 (opening ++ evs
              ++ [Update (SetDatasetInfo (Some report)); Update (SetApiStatus online)]
              ++ closing)
  = {| datasetInfo := Some report; loading := false; error := None;
       file := file s0; apiStatus := online; uploadProgress := 0 |}.
Proof.
  intros Hevs. now rewrite !after_app, (after_requests _ evs Hevs).
Qed.


(** X13. A failed attempt. When the upload throws [e], [analyzeDataset]
    still completes normally; on whatever state [s0] its updates land, it
    leaves no report, the loading flag false, the progress 0, the selected
    file untouched, the message derived from [e] as the error, and
    connectivity [offline] exactly when the message of [e] contains
    "conectar" or "servidor" (otherwise as it was). *)
Theorem analyzeDataset_failure_state
    (s s0 : state) (f : File) (evs : list (event update)) (e : Error) :
  file s = Some f ->
  apiStatus s <> offline ->
  Api.uploadAndAnalyzeDataset (Some f) (Some (Http.name f)) = (evs, Throw e) ->
  result (analyzeDataset s) = Normal tt
  /\ after s0 (events (analyzeDataset s))
     = {| datasetInfo := None; loading := false;
          error := Some (errorMessage_of e); file := file s0;
          apiStatus := if includes (message e) "conectar"
                          || includes (message e) "servidor"
                       then offline else apiStatus s0;
          uploadProgress := 0 |}.
Proof.
  intros Hfile Hon Hrun.
  pose proof (upload_trace_requests (U := update) (Some f) (Some (Http.name f)))
    as Hreq.
  rewrite (analyzeDataset_attempt s f Hfile (not_offline _ Hon)).
  rewrite Hrun in *. cbn [events result fst snd attempt_updates] in *.
  split; [reflexivity |].
  now rewrite after_failed_attempt.
Qed.


(** X15. When nothing comes back from the server for the upload of an
    accepted file, the attempt ends with the message "No se pudo conectar
    con el servidor. Verifica que la API esté ejecutándose." shown,
    connectivity [offline], no report, and the loading flag false. *)
Theorem analyzeDataset_unreachable_goes_offline (s s0 : state) (f : File) :
  file s = Some f ->
  apiStatus s <> offline ->
  accepted f = true ->
  transport (upload_request f (Some (Http.name f))) = NoResponse ->
  after s0 (events (analyzeDataset s))
  = {| datasetInfo := None; loading := false;
       error := Some connection_message; file := file s0;
       apiStatus := offline; uploadProgress := 0 |}.
Proof.
  intros Hfile Hon Hacc Hnet.
  destruct (proj1 (accepted_true f) Hacc) as [Hcsv Hsize].
  rewrite (analyzeDataset_attempt s f Hfile (not_offline _ Hon)).
  rewrite upload_sends by assumption. rewrite Hnet.
  cbn [events result fst snd outcome settle rejection err_response err_request
       attempt_updates].
  rewrite after_failed_attempt by (repeat constructor).
  reflexivity.
Qed.

(** X16. When the server answers the upload of an accepted file with status
    500 and a body without a truthy [error], the attempt shows "Error
    interno del servidor. Revisa la consola del backend para más detalles."
    whatever the status text, and stores no report. *)
Theorem analyzeDataset_status_500 (s s0 : state) (f : File) (r : response) :
  file s = Some f ->
  apiStatus s <> offline ->
  accepted f = true ->
  transport (upload_request f (Some (Http.name f))) = Responded r ->
  status r = 500%N ->
  nullish (data r) = false ->
  truthy (read (data r) "error") = false ->
  error (after s0 (events (analyzeDataset s))) = Some internal_error_message
  /\ datasetInfo (after s0 (events (analyzeDataset s))) = None.
Proof.
  intros Hfile Hon Hacc Hnet Hst Hbody Herr.
  destruct (proj1 (accepted_true f) Hacc) as [Hcsv Hsize].
  rewrite (analyzeDataset_attempt s f Hfile (not_offline _ Hon)).
  rewrite upload_sends by assumption. rewrite Hnet.
  unfold outcome, settle. rewrite Hst. cbn [validateStatus N.leb N.ltb andb].
  change (validateStatus 500) with false. cbn iota.
  unfold rejection. cbn [err_response]. rewrite Hbody.
  unfold Js.or. rewrite Herr. unfold Api.status_line. rewrite Hst.
  cbn [events result fst snd attempt_updates Error_of].
  rewrite after_failed_attempt by (repeat constructor).
  cbn [error datasetInfo]. split; reflexivity.
Qed.

End AttemptMore.

(** ** Further properties: selection, connectivity and the buttons *)

Section ViewMore.
Context {host : Host} {net : Network}.

(** The health probe's verdict. *)
Lemma testConnection_run {U : Type} :
  Api.testConnection (U := U)
  = ([Request (get_request "/health/")],
     Normal (match transport (get_request "/health/") with
             | Responded r => validateStatus (status r)
             | NoResponse | NotSent => false
             end)).
Proof.
  unfold Api.testConnection. rewrite checkAPIHealth_get.
  unfold outcome, settle.
  destruct (transport (get_request "/health/")) as [r | |]; cbn;
    [destruct (validateStatus (status r)) |..]; reflexivity.
Qed.

Lemma checkApiConnection_run :
  checkApiConnection
  = ([Request (get_request "/health/");
      Update (SetApiStatus
                (if match transport (get_request "/health/") with
                    | Responded r => validateStatus (status r)
                    | NoResponse | NotSent => false
                    end
                 then online else offline))],
     Normal tt).
Proof.
  unfold checkApiConnection. rewrite testConnection_run. cbn.
  destruct (match transport (get_request "/health/") with
            | Responded r => validateStatus (status r)
            | _ => false
            end); reflexivity.
Qed.

Lemma analyzeDataset_keeps_file (s s0 : state) :
  file (after s0 (events (analyzeDataset s))) = file s0.
Proof.
  destruct (file s) as [f |] eqn:Hfile.
  - destruct (is_offline (apiStatus s)) eqn:Hoff.
    + unfold analyzeDataset. rewrite Hfile, Hoff. reflexivity.
    + pose proof (upload_trace_requests (U := update) (Some f)
                    (Some (Http.name f))) as Hreq.
      rewrite (analyzeDataset_attempt s f Hfile Hoff). cbn [events fst].
      destruct (result _) as [payload | e]; cbn [attempt_updates].
      * destruct (Api.formatAnalysisData payload) as [report | e].
        -- now rewrite after_stored_attempt.
        -- now rewrite after_failed_attempt.
      * now rewrite after_failed_attempt.
  - unfold analyzeDataset. rewrite Hfile. reflexivity.
Qed.

(** X17. The view only ever holds an accepted file. If the selected file
    (if any) is a ".csv" of at most 50 MB, it still is after
    [handleFileUpload] on any list of files, after [analyzeDataset],
    after [checkApiConnection] and after [retryConnection]; and the initial
    state selects nothing. *)
Theorem selection_accepted_preserved (s s0 : state) (files : list File) :
  selection_accepted s0 ->
  selection_accepted initial
  /\ selection_accepted (after s0 (events (handleFileUpload files)))
  /\ selection_accepted (after s0 (events (analyzeDataset s)))
  /\ selection_accepted (after s0 (events checkApiConnection))
  /\ selection_accepted (after s0 (events retryConnection)).
Proof.
  intros Hinv. split; [exact I |]. split; [| split; [| split]].
  - destruct files as [| f others]; [exact Hinv |].
    unfold handleFileUpload. fold (is_csv f).
    change (50 * 1024 * 1024)%N with MAX_SIZE.
    destruct (is_csv f) eqn:Hcsv; cbn [negb]; [| exact Hinv].
    destruct (N.ltb_spec MAX_SIZE (size f)) as [Hgt | Hle]; [exact Hinv |].
    unfold selection_accepted. cbn. now apply accepted_true.
  - unfold selection_accepted. now rewrite analyzeDataset_keeps_file.
  - rewrite checkApiConnection_run. exact Hinv.
  - unfold retryConnection. rewrite checkApiConnection_run. exact Hinv.
Qed.

(** X18. The two validations agree: on a state whose selected file [f] is
    accepted and whose connectivity is not [offline], [analyzeDataset] always
    gets the upload of [f] to the HTTP client, right after its four opening
    updates; the client's own checks never stop it. *)
Theorem analyzeDataset_uploads_selection (s : state) (f : File) :
  selection_accepted s ->
  file s = Some f ->
  apiStatus s <> offline ->
  exists rest,
    events (analyzeDataset s)
    = opening ++ Request (upload_request f (Some (Http.name f))) :: rest.
Proof.
  intros Hinv Hfile Hon. unfold selection_accepted in Hinv. rewrite Hfile in Hinv.
  destruct (proj1 (accepted_true f) Hinv) as [Hcsv Hsize].
  rewrite (analyzeDataset_attempt s f Hfile (not_offline _ Hon)).
  rewrite upload_sends by assumption. cbn [events fst result snd].
  eexists. reflexivity.
Qed.

(** X19. [checkApiConnection] completes normally after one GET of /health/
    and one update, which sets connectivity to [online] exactly when the
    answer is 2xx and to [offline] otherwise; so connectivity is never
    [unknown] after it, and no other cell changes. *)
Theorem checkApiConnection_settles (s0 : state) :
  exists st,
    checkApiConnection
    = ([Request (get_request "/health/"); Update (SetApiStatus st)], Normal tt)
    /\ st <> unknown
    /\ (st = online
        <-> exists r, transport (get_request "/health/") = Responded r
                      /\ validateStatus (status r) = true)
    /\ after s0 (events checkApiConnection)
       = {| datasetInfo := datasetInfo s0; loading := loading s0;
            error := error s0; file := file s0; apiStatus := st;
            uploadProgress := uploadProgress s0 |}.
Proof.
  rewrite checkApiConnection_run.
  destruct (transport (get_request "/health/")) as [r | |];
    [destruct (validateStatus (status r)) eqn:Hok |..];
    eexists; (split; [reflexivity |]); (split; [discriminate |]);
    (split; [| reflexivity]).
  - split; [intros _; eauto | reflexivity].
  - split; [discriminate |]. intros (r' & [= <-] & Hok'). congruence.
  - split; [discriminate |]. intros (r' & Hr & _). discriminate.
  - split; [discriminate |]. intros (r' & Hr & _). discriminate.
Qed.

(** X20. [retryConnection] raises the loading flag, probes /health/ once,
    sets connectivity from the answer and lowers the flag. It changes
    nothing else: in particular an error message shown before the retry is
    still shown after a successful one. *)
Theorem retryConnection_frame (s0 : state) :
  exists st,
    retryConnection
    = ([Update (SetLoading true); Request (get_request "/health/");
        Update (SetApiStatus st); Update (SetLoading false)], Normal tt)
    /\ (st = online
        <-> exists r, transport (get_request "/health/") = Responded r
                      /\ validateStatus (status r) = true)
    /\ (st = offline \/ st = online)
    /\ after s0 (events retryConnection)
       = {| datasetInfo := datasetInfo s0; loading := false;
            error := error s0; file := file s0; apiStatus := st;
            uploadProgress := uploadProgress s0 |}.
Proof.
  unfold retryConnection. rewrite checkApiConnection_run.
  destruct (transport (get_request "/health/")) as [r | |];
    [destruct (validateStatus (status r)) eqn:Hok |..];
    eexists; (split; [reflexivity |]); (split; [| split; [| reflexivity]]).
  - split; [intros _; eauto | reflexivity].
  - now right.
  - split; [discriminate |]. intros (r' & [= <-] & Hok'). congruence.
  - now left.
  - split; [discriminate |]. intros (r' & Hr & _). discriminate.
  - now left.
  - split; [discriminate |]. intros (r' & Hr & _). discriminate.
  - now left.
Qed.


(** X22. The retry button is rendered exactly when connectivity is
    [offline]. Started from there, [retryConnection] disables it while the
    probe runs, and afterwards the button is gone if the server answered 2xx
    and is back, enabled, if not. *)
Theorem retry_button_follows_probe (s0 : state) :
  apiStatus s0 = offline ->
  (exists d, retry_button_disabled s0 = Some d)
  /\ retry_button_disabled (after s0 (firstn 1 (events retryConnection))) = Some true
  /\ retry_button_disabled (after s0 (events retryConnection))
     = match transport (get_request "/health/") with
       | Responded r => if validateStatus (status r) then None else Some false
       | NoResponse | NotSent => Some false
       end.
Proof.
  intros Hoff. unfold retryConnection. rewrite checkApiConnection_run.
  unfold retry_button_disabled. cbn. rewrite Hoff. cbn.
  split; [eauto |]. split; [reflexivity |].
  destruct (transport (get_request "/health/")) as [r | |];
    [destruct (validateStatus (status r)) |..]; reflexivity.
Qed.

End ViewMore.

(** ** The further properties at sample inputs *)

Lemma unanswered_calls_classified_witness :
  result (Api.getAnalysesList (U := update) (host := Sample.host)
            (net := Sample.silent))
  = Throw (new_Error connection_message)
  /\ result (Api.getAnalysisDetail (U := update) (host := Sample.host)
               (net := Sample.down) "7")
     = Throw (new_Error "Error en la configuración de la petición").
Proof.
  split.
  - apply (unanswered_calls_classified (U := update) (host := Sample.host)
             (net := Sample.silent) NoResponse (Sample.csv 10) None "7");
      [reflexivity | discriminate | reflexivity].
  - apply (unanswered_calls_classified (U := update) (host := Sample.host)
             (net := Sample.down) NotSent (Sample.csv 10) None "7");
      [reflexivity | discriminate | reflexivity].
Defined.


Lemma get_operations_status_line_witness :
  result (Api.getAnalysesList (U := update) (host := Sample.host)
            (net := Sample.answering
                      (Sample.server_error "Internal Server Error" (JStr ""))))
  = Throw (new_Error "Error 500: Internal Server Error").
Proof.
  apply (get_operations_status_line (U := update) (host := Sample.host)
           (net := Sample.answering
                     (Sample.server_error "Internal Server Error" (JStr "")))
           "7" (Sample.server_error "Internal Server Error" (JStr "")));
    [intros req _; reflexivity | reflexivity | reflexivity | reflexivity].
Defined.

Lemma null_error_body_surfaces_type_error_witness :
  result (Api.checkAPIHealth (U := update) (host := Sample.host)
            (net := Sample.answering (Sample.bad_request JNull)))
  = Throw (new_Error "Cannot read properties of null (reading 'error')").
Proof.
  apply (null_error_body_surfaces_type_error (U := update) (host := Sample.host)
           (net := Sample.answering (Sample.bad_request JNull))
           (Sample.csv 10) None "7" (Sample.bad_request JNull));
    [intros req; reflexivity | reflexivity | reflexivity | reflexivity].
Defined.


Lemma uploadAndAnalyze_failure_message_witness :
  result (Api.uploadAndAnalyze (host := Sample.host)
            (web := Sample.web 400 (JObj [("error", JStr "Invalid CSV")]))
            (Sample.csv 10) "ventas")
  = Throw (new_Error "Invalid CSV")
  /\ result (Api.uploadAndAnalyze (host := Sample.host)
               (web := Sample.web 400 (JObj []))
               (Sample.csv 10) "ventas")
     = Throw (new_Error "Error al analizar el dataset").
Proof.
  split.
  - destruct (uploadAndAnalyze_failure_message (host := Sample.host)
                (web := Sample.web 400 (JObj [("error", JStr "Invalid CSV")]))
                (Sample.csv 10) "ventas"
                {| Fetch.res_status := 400;
                   Fetch.json := Normal (JObj [("error", JStr "Invalid CSV")]) |})
      as (Hmsg & _ & _).
    + intros c. reflexivity.
    + reflexivity.
    + apply (Hmsg (JObj [("error", JStr "Invalid CSV")]) "Invalid CSV");
        [reflexivity | reflexivity | discriminate].
  - destruct (uploadAndAnalyze_failure_message (host := Sample.host)
                (web := Sample.web 400 (JObj []))
                (Sample.csv 10) "ventas"
                {| Fetch.res_status := 400; Fetch.json := Normal (JObj []) |})
      as (_ & Hdefault & _).
    + intros c. reflexivity.
    + reflexivity.
    + apply (Hdefault (JObj [])); reflexivity.
Defined.

Lemma getAnalyses_ignores_status_witness :
  result (Api.getAnalyses (host := Sample.host)
            (web := Sample.web 500 (JObj [("error", JStr "caída")])))
  = Normal (JObj [("error", JStr "caída")])
  /\ exists e,
       result (Api.getAnalysesList (U := update) (host := Sample.host)
                 (net := Sample.answering
                           (Sample.server_error "Internal Server Error"
                              (JObj [("error", JStr "caída")]))))
       = Throw e.
Proof.
  apply (getAnalyses_ignores_status (U := update) (host := Sample.host)
           (net := Sample.answering
                     (Sample.server_error "Internal Server Error"
                        (JObj [("error", JStr "caída")])))
           (web := Sample.web 500 (JObj [("error", JStr "caída")]))
           500%N "Internal Server Error" (JObj [("error", JStr "caída")]));
    [intros c; reflexivity | intros req; reflexivity | reflexivity].
Defined.

Lemma analyzeDataset_failure_state_witness :
  after Sample.ready
    (events (analyzeDataset (host := Sample.host)
               (net := Sample.answering
                         (Sample.bad_request (JObj [("error", JStr "Invalid CSV")])))
               Sample.ready))
  = {| datasetInfo := None; loading := false; error := Some "Invalid CSV";
       file := Some (Sample.csv 2097152); apiStatus := online;
       uploadProgress := 0 |}.
Proof.
  destruct (analyzeDataset_failure_state (host := Sample.host)
              (net := Sample.answering
                        (Sample.bad_request (JObj [("error", JStr "Invalid CSV")])))
              Sample.ready Sample.ready (Sample.csv 2097152)
              [Request (upload_request (host := Sample.host)
                          (Sample.csv 2097152) (Some "Ventas.CSV"))]
              (new_Error "Invalid CSV"))
    as [_ Hstate].
  - reflexivity.
  - discriminate.
  - reflexivity.
  - rewrite Hstate. reflexivity.
Defined.


Lemma analyzeDataset_unreachable_goes_offline_witness :
  apiStatus (after Sample.ready
               (events (analyzeDataset (host := Sample.host)
                          (net := Sample.silent) Sample.ready)))
  = offline.
Proof.
  rewrite (analyzeDataset_unreachable_goes_offline (host := Sample.host)
             (net := Sample.silent) Sample.ready Sample.ready
             (Sample.csv 2097152));
    [reflexivity | reflexivity | discriminate | reflexivity | reflexivity].
Defined.

Lemma analyzeDataset_status_500_witness :
  error (after Sample.ready
           (events (analyzeDataset (host := Sample.host)
                      (net := Sample.answering
                                (Sample.server_error "Internal Server Error"
                                   (JObj [])))
                      Sample.ready)))
  = Some internal_error_message.
Proof.
  apply (analyzeDataset_status_500 (host := Sample.host)
           (net := Sample.answering
                     (Sample.server_error "Internal Server Error" (JObj [])))
           Sample.ready Sample.ready (Sample.csv 2097152)
           (Sample.server_error "Internal Server Error" (JObj [])));
    [reflexivity | discriminate | reflexivity | reflexivity | reflexivity
    | reflexivity | reflexivity].
Defined.

Lemma selection_accepted_preserved_witness :
  selection_accepted
    (after Sample.ready (events (handleFileUpload [Sample.notes; Sample.csv 1]))).
Proof.
  apply (selection_accepted_preserved (host := Sample.host)
           (net := Sample.silent) Sample.ready Sample.ready
           [Sample.notes; Sample.csv 1]).
  reflexivity.
Defined.

Lemma analyzeDataset_uploads_selection_witness :
  exists rest,
    events (analyzeDataset (host := Sample.host) (net := Sample.silent)
              Sample.ready)
    = opening
        ++ Request (upload_request (host := Sample.host)
                      (Sample.csv 2097152) (Some "Ventas.CSV")) :: rest.
Proof.
  apply (analyzeDataset_uploads_selection (host := Sample.host)
           (net := Sample.silent) Sample.ready (Sample.csv 2097152));
    [reflexivity | reflexivity | discriminate].
Defined.


Lemma retry_button_follows_probe_witness :
  retry_button_disabled
    (after Sample.fresh
       (events (retryConnection (host := Sample.host)
                  (net := Sample.answering (Sample.ok JNull)))))
  = None.
Proof.
  rewrite (proj2 (proj2 (retry_button_follows_probe (host := Sample.host)
                           (net := Sample.answering (Sample.ok JNull))
                           Sample.fresh eq_refl))).
  reflexivity.
Defined.
